(** * nikola/winutils.py: repairing git symlink placeholders on Windows

    A shallow embedding of [is_file_into_dir] and [fix_all_git_symlinked]
    (src/nikola/winutils.py) and the properties stated about them.

    Layout:
    - [Py]: the [str] methods the module calls ([startswith], [split],
      [strip], [replace]);
    - [Platform]: the primitives of [os], [os.path], [io] and [shutil] the
      module calls, as an interface; the embedding is generic in it;
    - [Winutils]: the two functions of the module, line by line, in a monad
      that threads the file system, the log of primitive calls and the
      console output, and propagates exceptions;
    - [ntpath], [MemFS], [NT]: an instance of the interface (the path algebra
      of CPython's [ntpath] over an in-memory tree for the drive [C:]),
      on which concrete runs are evaluated. *)

From Stdlib Require Import String Ascii List ZArith Bool Lia.
Import ListNotations.
Open Scope string_scope.

(** ** Python strings *)

Module Py.

(** Characters are code points below 256. *)
Definition TAB : ascii := "009"%char.
Definition LF : ascii := "010"%char.

(** [s.startswith(p)] *)
Fixpoint startswith (p s : string) : bool :=
  match p with
  | EmptyString => true
  | String a p' =>
      match s with
      | EmptyString => false
      | String b s' => Ascii.eqb a b && startswith p' s'
      end
  end.

(** [str.isspace] on one character, for code points below 256:
    U+0009..U+000D, U+001C..U+0020, U+0085 and U+00A0. *)
Definition isspace (c : ascii) : bool :=
  let n := nat_of_ascii c in
  (((9 <=? n) && (n <=? 13)) || ((28 <=? n) && (n <=? 32))
   || (n =? 133) || (n =? 160))%nat.

(** [s.lstrip()] *)
Fixpoint lstrip (s : string) : string :=
  match s with
  | EmptyString => EmptyString
  | String c s' => if isspace c then lstrip s' else s
  end.

(** [s.rstrip()] *)
Fixpoint rstrip (s : string) : string :=
  match s with
  | EmptyString => EmptyString
  | String c s' =>
      match rstrip s' with
      | EmptyString => if isspace c then EmptyString else String c EmptyString
      | r => String c r
      end
  end.

(** [s.strip()] *)
Definition strip (s : string) : string := rstrip (lstrip s).

(** [s.replace(a, b)] for one-character [a] and [b]. *)
Fixpoint replace (a b : ascii) (s : string) : string :=
  match s with
  | EmptyString => EmptyString
  | String c s' => String (if Ascii.eqb c a then b else c) (replace a b s')
  end.

(** [s.split(sep)] for a one-character [sep]: one more piece than there are
    separators, never the empty list. *)
Fixpoint split (sep : ascii) (s : string) : list string :=
  match s with
  | EmptyString => [EmptyString]
  | String c s' =>
      if Ascii.eqb c sep then EmptyString :: split sep s'
      else match split sep s' with
           | [] => [String c EmptyString]
           | w :: ws => String c w :: ws
           end
  end.

(** What [io.open] in text mode hands over of the content of a file: a
    carriage return with the line feed after it, or alone, becomes a line
    feed. *)
Fixpoint universal_newlines (s : string) : string :=
  match s with
  | EmptyString => EmptyString
  | String c rest =>
      if Ascii.eqb c "013" then
        String LF
          match rest with
          | String d rest' =>
              if Ascii.eqb d LF then universal_newlines rest'
              else universal_newlines rest
          | EmptyString => EmptyString
          end
      else String c (universal_newlines rest)
  end.

(** Truth value of a string: [if name] holds when [name] is not empty. *)
Definition truthy (s : string) : bool :=
  match s with EmptyString => false | _ => true end.

End Py.

(** ** Exceptions and results *)

(** The exception classes the module distinguishes, each standing for its
    subclasses too.  [except ValueError] catches the first only;
    [except Exception] catches all three.  What is raised outside
    [Exception] ([KeyboardInterrupt] and the like) is not modelled. *)
Inductive exn : Type :=
| ValueError
| OSError
| Exception (msg : string).

Inductive result (A : Type) : Type :=
| Ok (a : A)
| Raise (e : exn).
Arguments Ok {A} a.
Arguments Raise {A} e.

(** ** The primitives of the standard library the module calls

    For arguments of type [str], as the module passes them:
    [os.path.join], [os.path.dirname] and [os.path.normpath] compute on the
    text of the paths and do not raise; [os.path.isdir] and
    [os.path.exists] ask the file system and answer [False] where the
    question fails; [os.path.relpath], the reads and the writers may
    raise. *)

Class Platform : Type := {
  (** the file system *)
  World : Type;
  (** [os.path.relpath(path, start)]; raises [ValueError] when no relative
      path exists (on Windows: different drives) *)
  os_path_relpath : string -> string -> result string;
  os_path_join : string -> string -> string;
  os_path_dirname : string -> string;
  os_path_normpath : string -> string;
  os_path_isdir : string -> World -> bool;
  os_path_exists : string -> World -> bool;
  (** [io.open(path, 'r', encoding='utf-8')] followed by [f.read()] *)
  io_open_read : string -> World -> result string;
  (** the three writers; a failing call may have changed the file system *)
  os_unlink : string -> World -> World * result unit;
  shutil_copytree : string -> string -> World -> World * result unit;
  shutil_copy2 : string -> string -> World -> World * result unit
}.

(** One entry of the log of primitive calls. *)
Inductive event : Type :=
| EvOpen (path : string)
| EvIsdir (path : string)
| EvExists (path : string)
| EvUnlink (path : string)
| EvCopytree (src dst : string)
| EvCopy2 (src dst : string).

(** ** The module *)

Module Winutils.
Section WithPlatform.
Context {P : Platform}.

(** What a run threads: the file system, the calls made so far (oldest
    first) and the lines printed so far. *)
Record state : Type := mkState {
  world : World;
  trace : list event;
  stdout : list string
}.

Definition M (A : Type) : Type := state -> state * result A.

Definition ret {A} (a : A) : M A := fun s => (s, Ok a).
Definition raise {A} (e : exn) : M A := fun s => (s, Raise e).
Definition bind {A B} (c : M A) (k : A -> M B) : M B :=
  fun s => match c s with
           | (s', Ok a) => k a s'
           | (s', Raise e) => (s', Raise e)
           end.

Notation "x <- c ;; k" := (bind c (fun x => k))
  (at level 61, c at next level, right associativity).
Notation "c ;;; k" := (bind c (fun _ => k))
  (at level 61, right associativity).

(** [try: c  except Exception: h] *)
Definition try_except_Exception {A} (c h : M A) : M A :=
  fun s => match c s with
           | (s', Ok a) => (s', Ok a)
           | (s', Raise _) => h s'
           end.

Definition lift {A} (r : result A) : M A := fun s => (s, r).

Definition log (ev : event) : M unit :=
  fun s => (mkState (world s) (trace s ++ [ev]) (stdout s), Ok tt).

(** [print(line)] *)
Definition print (line : string) : M unit :=
  fun s => (mkState (world s) (trace s) (stdout s ++ [line]), Ok tt).

Definition query {A} (f : World -> A) : M A := fun s => (s, Ok (f (world s))).

Definition update (f : World -> World * result unit) : M unit :=
  fun s => let (w, r) := f (world s) in (mkState w (trace s) (stdout s), r).

Definition open_read (path : string) : M string :=
  log (EvOpen path) ;;; (fun s => (s, io_open_read path (world s))).
Definition isdir (path : string) : M bool :=
  log (EvIsdir path) ;;; query (os_path_isdir path).
Definition exists_ (path : string) : M bool :=
  log (EvExists path) ;;; query (os_path_exists path).
Definition unlink (path : string) : M unit :=
  log (EvUnlink path) ;;; update (os_unlink path).
Definition copytree (src dst : string) : M unit :=
  log (EvCopytree src dst) ;;; update (shutil_copytree src dst).
Definition copy2 (src dst : string) : M unit :=
  log (EvCopy2 src dst) ;;; update (shutil_copy2 src dst).

(** [is_file_into_dir(filename, dirname)], lines 35-41. *)
Definition is_file_into_dir (filename dirname : string) : result bool :=
  match os_path_relpath filename dirname with
  | Ok rel => Ok (negb (Py.startswith "." rel))
  | Raise ValueError => Ok false
  | Raise e => Raise e
  end.

Definition SENTINEL : string := "\nikola\data\symlink-test-link.txt".
Definition MANIFEST : string := "\nikola\data\symlinked.txt".
Definition MARKER : string := "NIKOLA_SYMLINKS=OK".
Definition BAD_DATA : string := "Bad data in \nikola\data\symlinked.txt".

(** Lines 79-81: the names of the manifest. *)
Definition relnames_of (text : string) : list string :=
  let relnames := Py.split Py.LF text in
  let relnames :=
    map (fun name => Py.replace "/" "\" (Py.strip name)) relnames in
  filter Py.truthy relnames.

(** Lines 98-108: the source a placeholder names, or [None] where the loop
    body runs [continue]. *)
Definition resolve_src (topdir dst_dir text : string) : M (option string) :=
  try_except_Exception
    (let src := os_path_normpath (os_path_join dst_dir text) in
     e <- exists_ src ;;
     if negb e then ret None
     else
       inside <- lift (is_file_into_dir src topdir) ;;
       if negb inside then ret None else ret (Some src))
    (ret None).

(** Lines 111-121: the copy, and the count of failures after it. *)
Definition copy_src (src dst : string) (failures : Z) : M Z :=
  try_except_Exception
    (d <- isdir src ;;
     if d then unlink dst ;;; copytree src dst ;;; ret failures
     else copy2 src dst ;;; ret failures)
    (print "*** copy failed for" ;;;
     print (String Py.TAB " src: " ++ src) ;;;
     print (String Py.TAB " dst: " ++ dst) ;;;
     ret (failures + 1)%Z).

(** Lines 85-121: the body of the loop for one name; its value is the
    count of failures after the iteration. *)
Definition fix_one (topdir name : string) (failures : Z) : M Z :=
  let dst := os_path_join topdir name in
  inside <- lift (is_file_into_dir dst topdir) ;;
  if negb inside then ret failures
  else
    d <- isdir dst ;;
    if d then ret failures
    else
      text <- open_read (os_path_join topdir dst) ;;
      let dst_dir := os_path_dirname dst in
      r <- resolve_src topdir dst_dir text ;;
      match r with
      | None => ret failures
      | Some src => copy_src src dst failures
      end.

(** Lines 84-121: the loop. *)
Fixpoint fix_each (topdir : string) (relnames : list string) (failures : Z)
  : M Z :=
  match relnames with
  | [] => ret failures
  | name :: rest =>
      failures' <- fix_one topdir name failures ;;
      fix_each topdir rest failures'
  end.

(** [fix_all_git_symlinked(topdir)], lines 44-123. *)
Definition fix_all_git_symlinked (topdir : string) : M Z :=
  text <- open_read (topdir ++ SENTINEL) ;;
  if Py.startswith MARKER text then ret (-1)%Z
  else
    text <- open_read (topdir ++ MANIFEST) ;;
    if Py.startswith "." text then raise (Exception BAD_DATA)
    else fix_each topdir (relnames_of text) 0%Z.

End WithPlatform.
End Winutils.

(** ** The path algebra of Windows

    [ntpath] as CPython 3.11 has it, with [normpath] and [abspath] in the
    Python of the library ([_abspath_fallback]); the drive of a path is a
    drive letter with its colon, or the host and the share of a UNC path, or
    a device. *)

Module ntpath.

Definition sep : ascii := "\"%char.
Definition altsep : ascii := "/"%char.
Definition colon : ascii := ":"%char.
Definition curdir : string := ".".
Definition pardir : string := "..".

(** [c in '\\/'] *)
Definition is_sep (c : ascii) : bool := Ascii.eqb c sep || Ascii.eqb c altsep.

(** [str.lower] on code points below 256. *)
Definition lower_char (c : ascii) : ascii :=
  let n := nat_of_ascii c in
  if (((65 <=? n) && (n <=? 90))
      || ((192 <=? n) && (n <=? 222) && negb (n =? 215)))%nat
  then ascii_of_nat (n + 32) else c.

Fixpoint lower (s : string) : string :=
  match s with
  | EmptyString => EmptyString
  | String c s' => String (lower_char c) (lower s')
  end.

Definition normcase (s : string) : string := lower (Py.replace altsep sep s).

Definition starts_with_sep (p : string) : bool :=
  match p with String c _ => is_sep c | EmptyString => false end.

Fixpoint ends_with_sep (p : string) : bool :=
  match p with
  | EmptyString => false
  | String c EmptyString => is_sep c
  | String _ p' => ends_with_sep p'
  end.

(** [p[-1:] == ':'] *)
Fixpoint ends_with_colon (p : string) : bool :=
  match p with
  | EmptyString => false
  | String c EmptyString => Ascii.eqb c colon
  | String _ p' => ends_with_colon p'
  end.

(** The part of [s] before its first separator, and the rest, which is
    empty or begins with that separator. *)
Fixpoint until_sep (s : string) : string * string :=
  match s with
  | EmptyString => (EmptyString, EmptyString)
  | String c s' =>
      if is_sep c then (EmptyString, s)
      else let (a, b) := until_sep s' in (String c a, b)
  end.

(** The first [n] characters of [s], and the rest. *)
Fixpoint cut (n : nat) (s : string) : string * string :=
  match n, s with
  | S n', String c s' => let (a, b) := cut n' s' in (String c a, b)
  | _, _ => (EmptyString, s)
  end.

(** [normp[:8].upper() == '\\\\?\\UNC\\'], where [normp] is [p] with its
    forward slashes replaced. *)
Definition has_unc_prefix (p : string) : bool :=
  match p with
  | String a (String b (String q (String c
      (String u (String n (String k (String d _))))))) =>
      is_sep a && is_sep b && Ascii.eqb q "?" && is_sep c
      && (Ascii.eqb u "U" || Ascii.eqb u "u")
      && (Ascii.eqb n "N" || Ascii.eqb n "n")
      && (Ascii.eqb k "C" || Ascii.eqb k "c")
      && is_sep d
  | _ => false
  end.

(** [splitdrive(p)]: for a path that begins with two separators the drive
    runs up to the second separator found from the third character on (from
    the ninth after [\\?\UNC\]), or is the whole path where there are not
    two; otherwise the drive is a character followed by a colon. *)
Definition splitdrive (p : string) : string * string :=
  match p with
  | String c0 (String c1 rest) =>
      if is_sep c0 && is_sep c1 then
        let (lead, r0) := cut (if has_unc_prefix p then 6 else 0) rest in
        let (host, r1) := until_sep r0 in
        match r1 with
        | EmptyString => (p, EmptyString)
        | String s1 r2 =>
            let (share, tail) := until_sep r2 in
            match tail with
            | EmptyString => (p, EmptyString)
            | _ =>
                (String c0 (String c1 (lead ++ host ++ String s1 share)),
                 tail)
            end
        end
      else if Ascii.eqb c1 colon
      then (String c0 (String c1 EmptyString), rest)
      else (EmptyString, p)
  | _ => (EmptyString, p)
  end.

(** [isabs(s)]: the path begins with a separator, or with a character, a
    colon and a separator. *)
Definition isabs (s : string) : bool :=
  match s with
  | String c0 rest =>
      is_sep c0
      || match rest with
         | String c1 (String c2 _) => Ascii.eqb c1 colon && is_sep c2
         | _ => false
         end
  | EmptyString => false
  end.

(** A path with the separator that [join] puts after it before a relative
    path. *)
Definition with_sep (rp : string) : string :=
  if Py.truthy rp && negb (ends_with_sep rp)
  then rp ++ String sep EmptyString else rp.

(** The last step of [join]: a separator is put between a UNC drive and a
    path that is not absolute. *)
Definition attach (result_drive result_path : string) : string :=
  if Py.truthy result_path && negb (starts_with_sep result_path)
     && Py.truthy result_drive && negb (ends_with_colon result_drive)
  then result_drive ++ String sep result_path
  else result_drive ++ result_path.

(** [join(path, p)] *)
Definition join (path p : string) : string :=
  let (result_drive, result_path) := splitdrive path in
  let (p_drive, p_path) := splitdrive p in
  if starts_with_sep p_path then
    (* the second path is absolute *)
    attach (if Py.truthy p_drive || negb (Py.truthy result_drive)
            then p_drive else result_drive) p_path
  else
    let relative (drive : string) :=
      attach drive
        ((if Py.truthy result_path && negb (ends_with_sep result_path)
          then result_path ++ String sep EmptyString else result_path)
         ++ p_path) in
    if Py.truthy p_drive && negb (String.eqb p_drive result_drive) then
      if negb (String.eqb (lower p_drive) (lower result_drive)) then
        (* different drives: the first path is ignored *)
        attach p_drive p_path
      else (* the same drive in a different case *) relative p_drive
    else relative result_drive.

(** [head, tail = p[:i], p[i:]] with [i] just beyond the last separator. *)
Fixpoint cut_tail (p : string) : string * string :=
  match p with
  | EmptyString => (EmptyString, EmptyString)
  | String c p' =>
      let (h, t) := cut_tail p' in
      if Py.truthy h then (String c h, t)
      else if is_sep c then (String c EmptyString, t)
      else (EmptyString, String c t)
  end.

(** [s.rstrip('\\/')] *)
Fixpoint rstrip_seps (s : string) : string :=
  match s with
  | EmptyString => EmptyString
  | String c s' =>
      match rstrip_seps s' with
      | EmptyString => if is_sep c then EmptyString else String c EmptyString
      | r => String c r
      end
  end.

(** [s.lstrip('\\')] *)
Fixpoint lstrip_sep (s : string) : string :=
  match s with
  | EmptyString => EmptyString
  | String c s' => if Ascii.eqb c sep then lstrip_sep s' else s
  end.

(** [split(p)] *)
Definition split (p : string) : string * string :=
  let (d, p) := splitdrive p in
  let (head, tail) := cut_tail p in
  let head := if Py.truthy (rstrip_seps head) then rstrip_seps head else head in
  (d ++ head, tail).

(** [dirname(p)] *)
Definition dirname (p : string) : string := fst (split p).

(** The loop of [normpath] over the components, the kept ones in [acc],
    last first. *)
Fixpoint collapse (rooted : bool) (acc comps : list string) : list string :=
  match comps with
  | [] => rev acc
  | c :: cs =>
      if negb (Py.truthy c) || String.eqb c curdir then collapse rooted acc cs
      else if String.eqb c pardir then
        match acc with
        | a :: acc' =>
            if String.eqb a pardir then collapse rooted (c :: acc) cs
            else collapse rooted acc' cs
        | [] =>
            if rooted then collapse rooted acc cs
            else collapse rooted (c :: acc) cs
        end
      else collapse rooted (c :: acc) cs
  end.

(** [sep.join(comps)] *)
Fixpoint sep_join (comps : list string) : string :=
  match comps with
  | [] => EmptyString
  | [c] => c
  | c :: cs => c ++ String sep (sep_join cs)
  end.

(** [prefix.endswith(sep)] *)
Fixpoint ends_with_backslash (p : string) : bool :=
  match p with
  | EmptyString => false
  | String c EmptyString => Ascii.eqb c sep
  | String _ p' => ends_with_backslash p'
  end.

(** [normpath(path)] *)
Definition normpath (path : string) : string :=
  let path := Py.replace altsep sep path in
  let (prefix, path) := splitdrive path in
  let rooted := Py.startswith (String sep EmptyString) path in
  let prefix := if rooted then prefix ++ String sep EmptyString else prefix in
  let path := if rooted then lstrip_sep path else path in
  let comps :=
    collapse (ends_with_backslash prefix) [] (Py.split sep path) in
  let comps :=
    if negb (Py.truthy prefix) && negb (Nat.ltb 0 (List.length comps))
    then [curdir] else comps in
  prefix ++ sep_join comps.

(** [abspath(path)] as [ntpath._abspath_fallback] computes it, in a process
    whose current directory is [cwd]. *)
Definition abspath (cwd path : string) : string :=
  normpath (if isabs path then path else join cwd path).

(** [[x for x in rest.split(sep) if x]] *)
Definition parts (rest : string) : list string :=
  filter Py.truthy (Py.split sep rest).

(** The number of leading components the two lists share, up to case. *)
Fixpoint common (start_list path_list : list string) : nat :=
  match start_list, path_list with
  | e1 :: l1, e2 :: l2 =>
      if String.eqb (normcase e1) (normcase e2) then S (common l1 l2) else 0
  | _, _ => 0
  end.

(** [join] over all of [rel_list], for a list that is not empty. *)
Definition join_all (rel_list : list string) : string :=
  match rel_list with
  | [] => EmptyString
  | c :: cs => fold_left join cs c
  end.

(** [relpath(path, start)] *)
Definition relpath (cwd path start : string) : result string :=
  if negb (Py.truthy path) then Raise ValueError
  else
    let start_abs := abspath cwd (normpath start) in
    let path_abs := abspath cwd (normpath path) in
    let (start_drive, start_rest) := splitdrive start_abs in
    let (path_drive, path_rest) := splitdrive path_abs in
    if negb (String.eqb (normcase start_drive) (normcase path_drive))
    then Raise ValueError
    else
      let start_list := parts start_rest in
      let path_list := parts path_rest in
      let i := common start_list path_list in
      let rel_list :=
        (repeat pardir (List.length start_list - i) ++ skipn i path_list)%list in
      match rel_list with
      | [] => Ok curdir
      | _ => Ok (join_all rel_list)
      end.

End ntpath.

(** ** A file system in memory

    One drive, as a tree of directories and text files.  Names are compared
    exactly; permissions are not modelled. *)

Module MemFS.

#[warnings="-register-all"]
Inductive node : Type :=
| File (content : string)
| Dir (entries : list (string * node)).

Fixpoint assoc (name : string) (entries : list (string * node))
  : option node :=
  match entries with
  | [] => None
  | (k, v) :: rest => if String.eqb k name then Some v else assoc name rest
  end.

(** Replace the entry [name], or add it when there is none. *)
Fixpoint set (name : string) (v : node) (entries : list (string * node))
  : list (string * node) :=
  match entries with
  | [] => [(name, v)]
  | (k, w) :: rest =>
      if String.eqb k name then (k, v) :: rest else (k, w) :: set name v rest
  end.

Fixpoint unset (name : string) (entries : list (string * node))
  : list (string * node) :=
  match entries with
  | [] => []
  | (k, w) :: rest =>
      if String.eqb k name then rest else (k, w) :: unset name rest
  end.

(** The node a list of components leads to. *)
Fixpoint lookup (path : list string) (n : node) : option node :=
  match path with
  | [] => Some n
  | c :: rest =>
      match n with
      | Dir entries =>
          match assoc c entries with
          | Some m => lookup rest m
          | None => None
          end
      | File _ => None
      end
  end.

(** Put [new] at [path].  With [parents], missing directories on the way are
    created (as [os.makedirs] does); without, they must exist. *)
Fixpoint write (parents : bool) (path : list string) (new : node) (n : node)
  : option node :=
  match path with
  | [] => Some new
  | c :: rest =>
      match n with
      | Dir entries =>
          match assoc c entries with
          | Some m =>
              match write parents rest new m with
              | Some m' => Some (Dir (set c m' entries))
              | None => None
              end
          | None =>
              match rest with
              | [] => Some (Dir (set c new entries))
              | _ =>
                  if parents then
                    match write parents rest new (Dir []) with
                    | Some m' => Some (Dir (set c m' entries))
                    | None => None
                    end
                  else None
              end
          end
      | File _ => None
      end
  end.

(** Take the node at [path] away. *)
Fixpoint remove (path : list string) (n : node) : option node :=
  match path with
  | [] => None
  | c :: rest =>
      match n with
      | Dir entries =>
          match rest with
          | [] =>
              match assoc c entries with
              | Some _ => Some (Dir (unset c entries))
              | None => None
              end
          | _ =>
              match assoc c entries with
              | Some m =>
                  match remove rest m with
                  | Some m' => Some (Dir (set c m' entries))
                  | None => None
                  end
              | None => None
              end
          end
      | File _ => None
      end
  end.

Fixpoint last_name (path : list string) : string :=
  match path with
  | [] => EmptyString
  | [c] => c
  | _ :: rest => last_name rest
  end.

(** [p] leads to the node at [r] or below it. *)
Fixpoint prefix_path (r p : list string) : bool :=
  match r with
  | [] => true
  | a :: r' =>
      match p with
      | b :: p' => String.eqb a b && prefix_path r' p'
      | [] => false
      end
  end.

(** [p] leads two levels or more below the node at [r]. *)
Fixpoint deep_below (r p : list string) : bool :=
  match r, p with
  | [], _ :: _ :: _ => true
  | a :: r', b :: p' => String.eqb a b && deep_below r' p'
  | _, _ => false
  end.

Fixpoint same_path (p q : list string) : bool :=
  match p, q with
  | [], [] => true
  | a :: p', b :: q' => String.eqb a b && same_path p' q'
  | _, _ => false
  end.

End MemFS.

(** ** Windows over the file system in memory *)

Module NT.

(** The current directory of the process and its drive. *)
Definition CWD : string := "C:\work".
Definition DRIVE : string := "c:".

(** The components of a path on the drive; [None] on another drive. *)
Definition locate (path : string) : option (list string) :=
  let (drive, rest) := ntpath.splitdrive (ntpath.abspath CWD path) in
  if negb (Py.truthy drive) || String.eqb (ntpath.normcase drive) DRIVE
  then Some (ntpath.parts rest) else None.

Definition find (path : string) (w : MemFS.node) : option MemFS.node :=
  match locate path with
  | Some p => MemFS.lookup p w
  | None => None
  end.

Definition isdir (path : string) (w : MemFS.node) : bool :=
  match find path w with Some (MemFS.Dir _) => true | _ => false end.

Definition isfile (path : string) (w : MemFS.node) : bool :=
  match find path w with Some (MemFS.File _) => true | _ => false end.

Definition exists_ (path : string) (w : MemFS.node) : bool :=
  match find path w with Some _ => true | None => false end.

(** [io.open(path, 'r', encoding='utf-8')] and [f.read()]: the content of
    a file, its line ends translated. *)
Definition open_read (path : string) (w : MemFS.node) : result string :=
  match find path w with
  | Some (MemFS.File content) => Ok (Py.universal_newlines content)
  | _ => Raise OSError
  end.

(** [path] is the root or lies below it: the components of the root are
    the first components of the path. *)
Definition below (root path : string) : bool :=
  match locate root, locate path with
  | Some r, Some p => MemFS.prefix_path r p
  | _, _ => false
  end.

(** [os.unlink]: removes a file, fails on anything else. *)
Definition unlink (path : string) (w : MemFS.node)
  : MemFS.node * result unit :=
  match locate path with
  | Some p =>
      match MemFS.lookup p w with
      | Some (MemFS.File _) =>
          match MemFS.remove p w with
          | Some w' => (w', Ok tt)
          | None => (w, Raise OSError)
          end
      | _ => (w, Raise OSError)
      end
  | None => (w, Raise OSError)
  end.

(** [shutil.copy2]: [src] must be a file; a [dst] that is a directory
    stands for the file of the same name inside it; copying a file onto
    itself fails ([SameFileError]), and so does a [dst] whose directory is
    missing. *)
Definition copy2 (src dst : string) (w : MemFS.node)
  : MemFS.node * result unit :=
  match locate src, locate dst with
  | Some ps, Some pd =>
      match MemFS.lookup ps w with
      | Some (MemFS.File content) =>
          let pd :=
            match MemFS.lookup pd w with
            | Some (MemFS.Dir _) => (pd ++ [MemFS.last_name ps])%list
            | _ => pd
            end in
          if MemFS.same_path ps pd then (w, Raise OSError)
          else
            match pd, MemFS.write false pd (MemFS.File content) w with
            | _ :: _, Some w' => (w', Ok tt)
            | _, _ => (w, Raise OSError)
            end
      | _ => (w, Raise OSError)
      end
  | _, _ => (w, Raise OSError)
  end.

(** [shutil.copytree]: [src] must be a directory and [dst] must not exist;
    the tree is copied as it stands when the call starts, the directories
    above [dst] being created where they are missing.  With [dst] two levels
    or more below [src] the copy comes upon the directories it has made
    itself, goes down them until a path is too long, and raises; of what it
    leaves then, the model keeps the directory made at [dst] and no more. *)
Definition copytree (src dst : string) (w : MemFS.node)
  : MemFS.node * result unit :=
  match locate src, locate dst with
  | Some ps, Some pd =>
      match MemFS.lookup ps w, MemFS.lookup pd w with
      | Some (MemFS.Dir entries), None =>
          if MemFS.deep_below ps pd then
            match MemFS.write true pd (MemFS.Dir []) w with
            | Some w' => (w', Raise OSError)
            | None => (w, Raise OSError)
            end
          else
            match MemFS.write true pd (MemFS.Dir entries) w with
            | Some w' => (w', Ok tt)
            | None => (w, Raise OSError)
            end
      | _, _ => (w, Raise OSError)
      end
  | _, _ => (w, Raise OSError)
  end.

#[export] Instance platform : Platform := {
  World := MemFS.node;
  os_path_relpath := ntpath.relpath CWD;
  os_path_join := ntpath.join;
  os_path_dirname := ntpath.dirname;
  os_path_normpath := ntpath.normpath;
  os_path_isdir := isdir;
  os_path_exists := exists_;
  io_open_read := open_read;
  os_unlink := unlink;
  shutil_copytree := copytree;
  shutil_copy2 := copy2
}.

(** [shutil.copytree] cut short: the directory of the destination has been
    made, nothing has been copied into it, and the call raises. *)
Definition copytree_cut_short (src dst : string) (w : MemFS.node)
  : MemFS.node * result unit :=
  match locate src, locate dst with
  | Some ps, Some pd =>
      match MemFS.lookup ps w, MemFS.lookup pd w with
      | Some (MemFS.Dir _), None =>
          match MemFS.write true pd (MemFS.Dir []) w with
          | Some w' => (w', Raise OSError)
          | None => (w, Raise OSError)
          end
      | _, _ => (w, Raise OSError)
      end
  | _, _ => (w, Raise OSError)
  end.

(** The same Windows, on a day when every copy of a directory is cut
    short. *)
Definition cut_short : Platform := {|
  World := MemFS.node;
  os_path_relpath := ntpath.relpath CWD;
  os_path_join := ntpath.join;
  os_path_dirname := ntpath.dirname;
  os_path_normpath := ntpath.normpath;
  os_path_isdir := isdir;
  os_path_exists := exists_;
  io_open_read := open_read;
  os_unlink := unlink;
  shutil_copytree := copytree_cut_short;
  shutil_copy2 := copy2
|}.

(** A writer refused: nothing changes and the call raises, as on a volume
    that may not be written. *)
Definition refused (w : MemFS.node) : MemFS.node * result unit :=
  (w, Raise OSError).

(** The same Windows over a volume that may not be written. *)
Definition read_only : Platform := {|
  World := MemFS.node;
  os_path_relpath := ntpath.relpath CWD;
  os_path_join := ntpath.join;
  os_path_dirname := ntpath.dirname;
  os_path_normpath := ntpath.normpath;
  os_path_isdir := isdir;
  os_path_exists := exists_;
  io_open_read := open_read;
  os_unlink := fun _ => refused;
  shutil_copytree := fun _ _ => refused;
  shutil_copy2 := fun _ _ => refused
|}.

(** A run from an empty log and an empty console. *)
Definition run (topdir : string) (w : MemFS.node)
  : Winutils.state * result Z :=
  Winutils.fix_all_git_symlinked topdir (Winutils.mkState w [] []).

End NT.

(** ** Vocabulary of the properties *)

Module Spec.

(** The paths a primitive call is made on. *)
Definition paths_of (ev : event) : list string :=
  match ev with
  | EvOpen p | EvIsdir p | EvExists p | EvUnlink p => [p]
  | EvCopytree src dst | EvCopy2 src dst => [src; dst]
  end.

(** [os.path.exists] only asks whether a path is there. *)
Definition is_exists (ev : event) : bool :=
  match ev with EvExists _ => true | _ => false end.

(** A relative path whose first component is [..]. *)
Definition begins_with_pardir (rel : string) : bool :=
  String.eqb rel ".." || Py.startswith "..\" rel || Py.startswith "../" rel.

Section WithPlatform.
Context {P : Platform}.

(** The containment test of the module accepts [path]: the relative path
    of [path] from [topdir] does not begin with a dot.  This is the test of
    lines 35-41 and no more; whether [path] lies below the root in the file
    system is another question ([NT.below]). *)
Definition inside (topdir path : string) : Prop :=
  Winutils.is_file_into_dir path topdir = Ok true.

(** What the data model asks of the root, an absolute path: joining it
    with a path already joined with it changes nothing, and the containment
    test accepts the two fixed files. *)
Record root_ok (topdir : string) : Prop := {
  join_below : forall name,
    os_path_join topdir (os_path_join topdir name) = os_path_join topdir name;
  sentinel_inside : inside topdir (topdir ++ Winutils.SENTINEL);
  manifest_inside : inside topdir (topdir ++ Winutils.MANIFEST)
}.

(** The entry [name] passes every test of the loop in the file system [w]:
    the containment test accepts its destination, which is no directory,
    the placeholder there holds [text], and the source [text] names from
    the directory of the destination exists and is accepted by the
    containment test. *)
Record valid_entry (topdir name text src : string) (w : World) : Prop := {
  dst_inside : inside topdir (os_path_join topdir name);
  dst_no_dir : os_path_isdir (os_path_join topdir name) w = false;
  dst_holds : io_open_read (os_path_join topdir name) w = Ok text;
  src_named :
    src = os_path_normpath
            (os_path_join (os_path_dirname (os_path_join topdir name)) text);
  src_exists : os_path_exists src w = true;
  src_inside : inside topdir src
}.


(** The state [s] with the calls [evs] added to its log. *)
Definition logged (s : Winutils.state) (evs : list event) : Winutils.state :=
  Winutils.mkState (Winutils.world s) (Winutils.trace s ++ evs)%list
    (Winutils.stdout s).

(** A call made on paths the containment test accepts, or an existence
    test. *)
Definition guarded (topdir : string) (ev : event) : Prop :=
  is_exists ev = false ->
  forall p, In p (paths_of ev) -> inside topdir p.

End WithPlatform.

(** The three lines printed when a copy fails. *)
Definition diagnostic (src dst : string) : list string :=
  ["*** copy failed for";
   String Py.TAB " src: " ++ src;
   String Py.TAB " dst: " ++ dst].

(** A drive: one character and a colon. *)
Definition drive_of (c : ascii) : string :=
  String c (String ntpath.colon EmptyString).

(** A string that does not start with white space. *)
Definition tight_left (s : string) : Prop :=
  match s with
  | EmptyString => True
  | String c _ => Py.isspace c = false
  end.

(** *** The manifest, in the words of the specification

    The lines of the text in order; each with its separators put in the
    convention of the host and the white space around it trimmed; the empty
    ones left out.  No definition here calls a function of [Py]: these are
    what lines 79-81 are compared with. *)

Definition snoc (s : string) (c : ascii) : string := s ++ String c EmptyString.

(** The lines of [s], [cur] being the part of the current line read so far. *)
Fixpoint spec_lines (cur : string) (s : string) : list string :=
  match s with
  | EmptyString => [cur]
  | String c s' =>
      if Ascii.eqb c "010" then cur :: spec_lines EmptyString s'
      else spec_lines (snoc cur c) s'
  end.

(** The white space among the code points below 256: the controls from the
    tab to the carriage return, the four information separators, the space,
    the next line and the no-break space. *)
Definition white_space : list ascii :=
  ["009"; "010"; "011"; "012"; "013"; "028"; "029"; "030"; "031"; "032";
   "133"; "160"]%char.

Definition is_white (c : ascii) : bool := existsb (Ascii.eqb c) white_space.

(** The characters [cs] without the white space they begin with. *)
Fixpoint drop_white (cs : list ascii) : list ascii :=
  match cs with
  | [] => []
  | c :: rest => if is_white c then drop_white rest else cs
  end.

(** A line without the white space around it: what it begins with is
    dropped, and what it ends with, which is what the line read backwards
    begins with. *)
Definition spec_trim (line : string) : string :=
  string_of_list_ascii
    (rev (drop_white (rev (drop_white (list_ascii_of_string line))))).

(** A character in the convention of the host: the backslash for the
    forward slash. *)
Definition host_char (c : ascii) : ascii :=
  if Ascii.eqb c "/" then "\"%char else c.

Definition spec_normalize (line : string) : string :=
  string_of_list_ascii (map host_char (list_ascii_of_string line)).

Fixpoint spec_entries (lines : list string) : list string :=
  match lines with
  | [] => []
  | line :: rest =>
      match spec_trim (spec_normalize line) with
      | EmptyString => spec_entries rest
      | entry => entry :: spec_entries rest
      end
  end.

Definition spec_manifest (text : string) : list string :=
  spec_entries (spec_lines EmptyString text).

Fixpoint contains (c : ascii) (s : string) : bool :=
  match s with
  | EmptyString => false
  | String d s' => Ascii.eqb d c || contains c s'
  end.

Definition first_char (s : string) : option ascii :=
  match s with
  | EmptyString => None
  | String c _ => Some c
  end.

Fixpoint last_char (s : string) : option ascii :=
  match s with
  | EmptyString => None
  | String c EmptyString => Some c
  | String _ s' => last_char s'
  end.

(** No white space at an end of a string, given by the character there. *)
Definition bare (end_ : option ascii) : Prop :=
  match end_ with
  | Some c => is_white c = false
  | None => True
  end.

(** The path a call writes at: the file [os.unlink] removes, the
    destination of a copy. *)
Definition written (ev : event) : option string :=
  match ev with
  | EvUnlink p => Some p
  | EvCopytree _ dst | EvCopy2 _ dst => Some dst
  | _ => None
  end.

(** A text of white space only. *)
Fixpoint all_space (s : string) : bool :=
  match s with
  | EmptyString => true
  | String c s' => Py.isspace c && all_space s'
  end.

(** The names one per line, a line feed between two lines. *)
Fixpoint join_lines (names : list string) : string :=
  match names with
  | [] => EmptyString
  | [name] => name
  | name :: rest => name ++ String Py.LF (join_lines rest)
  end.

(** A name as a line of a manifest carries it: not empty, no white space
    around it, no line feed in it. *)
Definition line_name (name : string) : Prop :=
  Py.truthy name = true /\ Py.strip name = name
  /\ contains Py.LF name = false.

(** What is printed for the copies that failed, each given by its source
    and its destination. *)
Definition reports_lines (reports : list (string * string)) : list string :=
  flat_map (fun r => diagnostic (fst r) (snd r)) reports.

(** The calls of an iteration that goes all the way, in their order: on
    the destination [dst], on the path [path] the placeholder is read at, on
    the source [src], which is a directory or not. *)
Definition calls_of_entry (dst path src : string) (is_dir : bool)
  : list event :=
  [EvIsdir dst; EvOpen path; EvExists src; EvIsdir src]
  ++ (if is_dir then [EvUnlink dst; EvCopytree src dst]
      else [EvCopy2 src dst]).

(** A carriage return before every line feed. *)
Fixpoint crlf (s : string) : string :=
  match s with
  | EmptyString => EmptyString
  | String c s' =>
      if Ascii.eqb c Py.LF then String "013"%char (String c (crlf s'))
      else String c (crlf s')
  end.

End Spec.

(** ** What the writers promise

    The observations the properties are stated with, and the contract of
    [shutil.copy2] and [shutil.copytree] they rest on. *)

Class Observer (P : Platform) : Type := {
  (** the content of a directory, everything below it included *)
  Tree : Type;
  os_path_isfile : string -> World -> bool;
  tree_at : string -> World -> option Tree
}.

Record Laws {P : Platform} (O : Observer P) : Prop := {
  isdir_not_isfile : forall p w,
    os_path_isdir p w = true -> os_path_isfile p w = false;
  isdir_has_tree : forall p w,
    os_path_isdir p w = true -> tree_at p w <> None;
  (** a successful [copy2] onto a path that is no directory leaves there
      what was read from the source *)
  copy2_content : forall src dst w w',
    shutil_copy2 src dst w = (w', Ok tt) ->
    os_path_isdir dst w = false ->
    io_open_read dst w' = io_open_read src w;
  (** a successful [copytree] leaves at the destination a directory with
      the tree of the source *)
  copytree_tree : forall src dst w w',
    shutil_copytree src dst w = (w', Ok tt) ->
    os_path_isdir dst w' = true /\ tree_at dst w' = tree_at src w
}.

#[export] Instance NT_observer : Observer NT.platform := {
  Tree := MemFS.node;
  os_path_isfile := NT.isfile;
  tree_at := NT.find
}.

(** ** Worlds the properties are tried on *)

Module Examples.
Import MemFS.

Definition ROOT : string := "C:\repo".

(** A checkout at [C:\repo] with the sentinel, the manifest and [rest]. *)
Definition checkout (sentinel manifest : string)
  (rest : list (string * node)) : node :=
  Dir [("repo",
        Dir (("nikola",
              Dir [("data",
                    Dir [("symlink-test-link.txt", File sentinel);
                         ("symlinked.txt", File manifest)])]) :: rest))].

(** The sentinel of a checkout without symbolic links is a placeholder. *)
Definition BROKEN : string := "symlink-test-orig.txt".

Definition lines2 (a b : string) : string := a ++ String Py.LF b.

Definition docs_and_real : list (string * node) :=
  [("docs", Dir [("a.txt", File "../real/a.txt")]);
   ("real", Dir [("a.txt", File "hello")])].

(** One entry, [docs/a.txt] naming [../real/a.txt]. *)
Definition one_file : node := checkout BROKEN (lines2 "docs/a.txt" "") docs_and_real.

(** The same with the content under [docs/real/a.txt]. *)
Definition one_file_under_docs : node :=
  checkout BROKEN (lines2 "docs/a.txt" "")
    [("docs", Dir [("a.txt", File "../real/a.txt");
                   ("real", Dir [("a.txt", File "hello")])])].

(** The checkout has symbolic links. *)
Definition links_ok : node :=
  checkout (lines2 "NIKOLA_SYMLINKS=OK" "") (lines2 "docs/a.txt" "") docs_and_real.

(** The manifest starts with a separator. *)
Definition leading_separator : node :=
  checkout BROKEN (lines2 "/docs/a.txt" "docs/a.txt") docs_and_real.

(** The manifest starts with a dot. *)
Definition leading_dot : node :=
  checkout BROKEN (lines2 "./docs/a.txt" "") docs_and_real.


(** The first placeholder names itself, so its copy fails. *)
Definition failing_copy : node :=
  checkout BROKEN (lines2 "self.txt" "docs/a.txt")
    (("self.txt", File "self.txt") :: docs_and_real).

(** A placeholder that names a directory. *)
Definition one_directory : node :=
  checkout BROKEN "docs/link"
    [("docs", Dir [("link", File "../real")]);
     ("real", Dir [("a.txt", File "hello");
                   ("sub", Dir [("b.txt", File "bye")])])].

(** Beside the checkout a directory [C:\other] with a file whose name has
    a colon for its second character; the second entry of the manifest
    names that file. *)
Definition colon_escape : node :=
  Dir [("other", Dir [("d:x", File "../repo/real/a.txt")]);
       ("repo",
        Dir (("nikola",
              Dir [("data",
                    Dir [("symlink-test-link.txt", File BROKEN);
                         ("symlinked.txt",
                          File (lines2 "docs/a.txt" "../other/d:x"))])])
             :: docs_and_real))].


(** One entry, whose placeholder names a directory of the root with a dot
    at the beginning of its name. *)
Definition dot_directory : node :=
  checkout BROKEN "docs/link"
    [("docs", Dir [("link", File "../.real")]);
     (".real", Dir [("a.txt", File "hello")])].

(** Three entries: a placeholder for a file, a placeholder for the
    directory [real], and a placeholder inside [real]. *)
Definition three_entries : node :=
  checkout BROKEN
    (lines2 "docs/a.txt" (lines2 "docs/link" "real/b.txt"))
    [("docs", Dir [("a.txt", File "../real/a.txt");
                   ("link", File "../real")]);
     ("real", Dir [("a.txt", File "hello");
                   ("b.txt", File "../other.txt")]);
     ("other.txt", File "bye")].

(** A checkout whose manifest is missing. *)
Definition no_manifest : node :=
  Dir [("repo",
        Dir [("nikola",
              Dir [("data",
                    Dir [("symlink-test-link.txt", File BROKEN)])])])].

(** The second entry names a file that is not there. *)
Definition missing_second : node :=
  checkout BROKEN (lines2 "docs/a.txt" "missing.txt") docs_and_real.

(** A manifest of white space only. *)
Definition blank_manifest : node :=
  checkout BROKEN (lines2 "  " (String Py.TAB " ")) docs_and_real.

(** States of a run on Windows over the file system in memory. *)
Definition at_state (w : node) (calls : list event) (lines : list string)
  : Winutils.state :=
  Winutils.mkState (P := NT.platform) w calls lines.

(** The state a run starts from. *)
Definition start (w : node) : Winutils.state := at_state w [] [].

End Examples.

(** * Properties *)

(** ** Strings *)

Lemma begins_with_pardir_dot rel :
  Spec.begins_with_pardir rel = true -> Py.startswith "." rel = true.
Proof.
  unfold Spec.begins_with_pardir.
  destruct rel as [|c rest]; [discriminate|].
  cbn -[Ascii.eqb]. rewrite (Ascii.eqb_sym c).
  destruct (Ascii.eqb "." c); [reflexivity|discriminate].
Qed.

Arguments Py.startswith : simpl never.
Arguments Winutils.bind : simpl never.
Arguments Winutils.lift : simpl never.
Arguments Winutils.open_read : simpl never.
Arguments Winutils.isdir : simpl never.
Arguments Winutils.exists_ : simpl never.
Arguments Winutils.resolve_src : simpl never.
Arguments Winutils.copy_src : simpl never.
Arguments Winutils.fix_one : simpl never.
Arguments Winutils.is_file_into_dir : simpl never.

(** ** The steps of a run, whatever the platform *)

Create HintDb winutils.
#[export] Hint Unfold Winutils.bind Winutils.ret Winutils.raise Winutils.lift
  Winutils.log Winutils.print Winutils.query Winutils.update
  Winutils.try_except_Exception
  Winutils.open_read Winutils.isdir Winutils.exists_ Winutils.unlink
  Winutils.copytree Winutils.copy2 : winutils.

Ltac step := autounfold with winutils in *; cbn [Winutils.world Winutils.trace Winutils.stdout fst snd] in *.

Ltac inv H := inversion H; subst; clear H.

Section Steps.
Context {P : Platform}.
Import Winutils Spec.
Local Open Scope list_scope.

Lemma bind_eq {A B} (c : M A) (k : A -> M B) s :
  bind c k s = match c s with
               | (s', Ok a) => k a s'
               | (s', Raise e) => (s', Raise e)
               end.
Proof. reflexivity. Qed.

Lemma logged_nil s : logged s [] = s.
Proof. destruct s; unfold logged; cbn; now rewrite app_nil_r. Qed.

Lemma logged_logged s evs evs' :
  logged (logged s evs) evs' = logged s (evs ++ evs').
Proof. unfold logged; cbn; now rewrite app_assoc. Qed.

Lemma open_read_eq path s :
  open_read path s = (logged s [EvOpen path], io_open_read path (world s)).
Proof. reflexivity. Qed.

Lemma isdir_eq path s :
  isdir path s = (logged s [EvIsdir path], Ok (os_path_isdir path (world s))).
Proof. reflexivity. Qed.

(** Lines 98-108 in closed form: one existence test, no exception. *)
Lemma resolve_src_eq topdir dst_dir text s :
  let src := os_path_normpath (os_path_join dst_dir text) in
  resolve_src topdir dst_dir text s =
  (logged s [EvExists src],
   Ok (if os_path_exists src (world s)
       then match is_file_into_dir src topdir with
            | Ok true => Some src
            | _ => None
            end
       else None)).
Proof.
  cbn zeta. unfold resolve_src. step. unfold logged.
  destruct (os_path_exists _ (world s)); cbn; [|reflexivity].
  destruct (is_file_into_dir _ topdir) as [[|]|e]; reflexivity.
Qed.

(** Lines 111-121 never raise, count at most one failure, and call the
    primitives on [src] and [dst] only. *)
Lemma copy_src_total src dst failures s :
  exists s' n evs,
    copy_src src dst failures s = (s', Ok n)
    /\ (n = failures \/ n = (failures + 1)%Z)
    /\ trace s' = trace s ++ evs
    /\ Forall (fun ev => forall p, In p (Spec.paths_of ev) -> p = src \/ p = dst) evs.
Proof.
  unfold copy_src. step. cbn.
  assert (Hi : forall p, In p (Spec.paths_of (EvIsdir src)) -> p = src \/ p = dst)
    by (cbn; intuition).
  assert (Hu : forall p, In p (Spec.paths_of (EvUnlink dst)) -> p = src \/ p = dst)
    by (cbn; intuition).
  assert (Ht : forall p, In p (Spec.paths_of (EvCopytree src dst)) -> p = src \/ p = dst)
    by (cbn; intuition).
  assert (Hc : forall p, In p (Spec.paths_of (EvCopy2 src dst)) -> p = src \/ p = dst)
    by (cbn; intuition).
  assert (Hfin : forall s' n evs,
    (n = failures \/ n = (failures + 1)%Z) ->
    trace s' = trace s ++ evs ->
    Forall (fun ev => forall p, In p (Spec.paths_of ev) -> p = src \/ p = dst) evs ->
    exists s'' n' evs', (s', Ok n) = (s'', Ok n')
      /\ (n' = failures \/ n' = (failures + 1)%Z)
      /\ trace s'' = trace s ++ evs'
      /\ Forall (fun ev => forall p, In p (Spec.paths_of ev) -> p = src \/ p = dst) evs')
    by (intros s' n evs ? ? ?; exists s', n, evs; auto).
  destruct (os_path_isdir src (world s)); cbn.
  - destruct (os_unlink dst (world s)) as [w1 [[]|e1]] eqn:E1; cbn.
    + destruct (shutil_copytree src dst w1) as [w2 [[]|e2]] eqn:E2; cbn;
        apply Hfin with (evs := [EvIsdir src; EvUnlink dst; EvCopytree src dst]);
        cbn; auto; now rewrite <- !app_assoc.
    + apply Hfin with (evs := [EvIsdir src; EvUnlink dst]);
        cbn; auto; now rewrite <- !app_assoc.
  - destruct (shutil_copy2 src dst (world s)) as [w1 [[]|e1]] eqn:E1; cbn;
      apply Hfin with (evs := [EvIsdir src; EvCopy2 src dst]);
      cbn; auto; now rewrite <- !app_assoc.
Qed.

(** Lines 111-121 in closed form. *)
Lemma copy_src_eq src dst failures s :
  copy_src src dst failures s =
  if os_path_isdir src (world s) then
    match os_unlink dst (world s) with
    | (w1, Ok _) =>
        match shutil_copytree src dst w1 with
        | (w2, Ok _) =>
            (mkState w2
               (trace s ++ [EvIsdir src; EvUnlink dst; EvCopytree src dst])
               (stdout s), Ok failures)
        | (w2, Raise _) =>
            (mkState w2
               (trace s ++ [EvIsdir src; EvUnlink dst; EvCopytree src dst])
               (stdout s ++ diagnostic src dst), Ok (failures + 1)%Z)
        end
    | (w1, Raise _) =>
        (mkState w1 (trace s ++ [EvIsdir src; EvUnlink dst])
           (stdout s ++ diagnostic src dst), Ok (failures + 1)%Z)
    end
  else
    match shutil_copy2 src dst (world s) with
    | (w1, Ok _) =>
        (mkState w1 (trace s ++ [EvIsdir src; EvCopy2 src dst]) (stdout s),
         Ok failures)
    | (w1, Raise _) =>
        (mkState w1 (trace s ++ [EvIsdir src; EvCopy2 src dst])
           (stdout s ++ diagnostic src dst), Ok (failures + 1)%Z)
    end.
Proof.
  unfold copy_src, diagnostic. step. cbn.
  destruct (os_path_isdir src (world s)); cbn.
  - destruct (os_unlink dst (world s)) as [w1 [[]|e1]]; cbn.
    + destruct (shutil_copytree src dst w1) as [w2 [[]|e2]]; cbn;
        now rewrite <- !app_assoc.
    + now rewrite <- !app_assoc.
  - destruct (shutil_copy2 src dst (world s)) as [w1 [[]|e1]]; cbn;
      now rewrite <- !app_assoc.
Qed.

(** Lines 85-121 in closed form, up to the copy. *)
Lemma fix_one_eq topdir name failures s :
  let dst := os_path_join topdir name in
  fix_one topdir name failures s =
  match is_file_into_dir dst topdir with
  | Raise e => (s, Raise e)
  | Ok false => (s, Ok failures)
  | Ok true =>
      if os_path_isdir dst (world s)
      then (logged s [EvIsdir dst], Ok failures)
      else
        let path := os_path_join topdir dst in
        match io_open_read path (world s) with
        | Raise e => (logged s [EvIsdir dst; EvOpen path], Raise e)
        | Ok text =>
            let src :=
              os_path_normpath (os_path_join (os_path_dirname dst) text) in
            let s3 := logged s [EvIsdir dst; EvOpen path; EvExists src] in
            if os_path_exists src (world s) then
              match is_file_into_dir src topdir with
              | Ok true => copy_src src dst failures s3
              | _ => (s3, Ok failures)
              end
            else (s3, Ok failures)
        end
  end.
Proof.
  cbn zeta. unfold fix_one. rewrite bind_eq. unfold lift at 1.
  destruct (is_file_into_dir _ topdir) as [[|]|e]; cbn; try reflexivity.
  rewrite bind_eq, isdir_eq.
  destruct (os_path_isdir _ _); cbn; [reflexivity|].
  rewrite bind_eq, open_read_eq. cbn.
  destruct (io_open_read _ _) as [text|e];
    [|now rewrite logged_logged].
  rewrite bind_eq, resolve_src_eq. cbn. rewrite !logged_logged. cbn.
  destruct (os_path_exists _ _);
    [destruct (is_file_into_dir _ topdir) as [[|]|]|]; reflexivity.
Qed.

(** An iteration that returns leaves the count as it was or adds one. *)
Lemma fix_one_count topdir name failures s s' n :
  fix_one topdir name failures s = (s', Ok n) ->
  n = failures \/ n = (failures + 1)%Z.
Proof.
  unfold fix_one. rewrite bind_eq. unfold lift at 1.
  destruct (is_file_into_dir _ topdir) as [[|]|e]; cbn; try discriminate.
  2:{ intros H; inv H; auto. }
  rewrite bind_eq, isdir_eq.
  destruct (os_path_isdir _ _); cbn.
  { intros H; inv H; auto. }
  rewrite bind_eq, open_read_eq.
  destruct (io_open_read _ _) as [text|e]; try discriminate.
  rewrite bind_eq, resolve_src_eq.
  assert (Hcopy : forall src st,
    copy_src src (os_path_join topdir name) failures st = (s', Ok n) ->
    n = failures \/ n = (failures + 1)%Z).
  { intros src st H.
    destruct (copy_src_total src (os_path_join topdir name) failures st)
      as (s2 & n2 & evs & E & Hn & _).
    rewrite E in H; inv H; exact Hn. }
  destruct (os_path_exists _ _);
    [destruct (is_file_into_dir _ topdir) as [[|]|]|]; cbn;
    try (intros H; inv H; auto; fail).
  apply Hcopy.
Qed.

Lemma fix_each_count topdir relnames : forall failures s s' n,
  fix_each topdir relnames failures s = (s', Ok n) ->
  (failures <= n <= failures + Z.of_nat (List.length relnames))%Z.
Proof.
  induction relnames as [|name rest IH]; intros failures s s' n H.
  - inv H. cbn. lia.
  - cbn [fix_each] in H. rewrite bind_eq in H.
    destruct (fix_one topdir name failures s) as [s1 [n1|e]] eqn:E1;
      try discriminate.
    apply fix_one_count in E1. apply IH in H.
    cbn [List.length]. lia.
Qed.

End Steps.

(** ** The claims that hold on every platform *)

Section Claims.
Context {P : Platform}.
Import Winutils Spec.
Local Open Scope list_scope.

(** C4, as the code has it: [is_file_into_dir] answers [True] when the
    relative path of the candidate from the root does not begin with a dot,
    and [False] when that path is [.] (the root itself), when it begins with
    a parent-directory segment, and when [os.path.relpath] raises
    [ValueError]; it leaves the file system, the log and the console as they
    are. *)
Theorem is_file_into_dir_answers (filename dirname : string) :
  (forall rel, os_path_relpath filename dirname = Ok rel ->
     (Py.startswith "." rel = false ->
      is_file_into_dir filename dirname = Ok true)
     /\ (rel = "." \/ Spec.begins_with_pardir rel = true ->
         is_file_into_dir filename dirname = Ok false))
  /\ (os_path_relpath filename dirname = Raise ValueError ->
      is_file_into_dir filename dirname = Ok false)
  /\ (forall s, fst (lift (is_file_into_dir filename dirname) s) = s).
Proof.
  unfold is_file_into_dir. repeat split.
  - intros H0. rewrite H. now rewrite H0.
  - intros [->|H0]; rewrite H.
    + reflexivity.
    + now rewrite (begins_with_pardir_dot _ H0).
  - intros H. now rewrite H.
Qed.

(** C5: when the content of the sentinel starts with the marker, the run
    returns -1 at once, having made the one call that read the sentinel and
    changed nothing; and -1 is no count of failures, for the loop, which
    starts from 0, never returns a negative number. *)
Theorem marker_short_circuits (topdir : string) (s : state) (text : string) :
  io_open_read (topdir ++ SENTINEL)%string (world s) = Ok text ->
  Py.startswith MARKER text = true ->
  fix_all_git_symlinked topdir s =
    (mkState (world s) (trace s ++ [EvOpen (topdir ++ SENTINEL)%string])
       (stdout s), Ok (-1)%Z)
  /\ (forall relnames s0 s1 n,
        fix_each topdir relnames 0%Z s0 = (s1, Ok n) -> (0 <= n)%Z).
Proof.
  intros Hread Hmark. split.
  - unfold fix_all_git_symlinked. rewrite bind_eq, open_read_eq, Hread.
    now rewrite Hmark.
  - intros relnames s0 s1 n H. apply fix_each_count in H. lia.
Qed.

(** C10: a run that returns, returns -1 or a count between 0 and the number
    of names kept from the manifest. *)
Theorem return_value_bounds (topdir : string) (s s' : state) (r : Z) :
  fix_all_git_symlinked topdir s = (s', Ok r) ->
  r = (-1)%Z
  \/ exists text,
       io_open_read (topdir ++ MANIFEST)%string (world s) = Ok text
       /\ (0 <= r <= Z.of_nat (List.length (relnames_of text)))%Z.
Proof.
  unfold fix_all_git_symlinked. rewrite bind_eq, open_read_eq.
  destruct (io_open_read (topdir ++ SENTINEL)%string (world s)) as [stext|e];
    cbn; [|discriminate].
  destruct (Py.startswith MARKER stext).
  - intros H; inv H; now left.
  - rewrite bind_eq, open_read_eq. cbn.
    destruct (io_open_read (topdir ++ MANIFEST)%string (world s)) as [text|e];
      cbn; [|discriminate].
    destruct (Py.startswith "." text); [discriminate|].
    intros H. apply fix_each_count in H.
    right. exists text. split; [reflexivity|lia].
Qed.

(** C1, as the code has it: when the content of the manifest starts with a
    dot, the run raises [Exception('Bad data in ...')], having read the
    sentinel and the manifest and changed nothing. *)
Theorem leading_dot_is_fatal (topdir : string) (s : state)
  (stext text : string) :
  io_open_read (topdir ++ SENTINEL)%string (world s) = Ok stext ->
  Py.startswith MARKER stext = false ->
  io_open_read (topdir ++ MANIFEST)%string (world s) = Ok text ->
  Py.startswith "." text = true ->
  fix_all_git_symlinked topdir s =
    (mkState (world s)
       (trace s ++ [EvOpen (topdir ++ SENTINEL)%string;
                    EvOpen (topdir ++ MANIFEST)%string])
       (stdout s), Raise (Exception BAD_DATA)).
Proof.
  intros Hs Hm Ht Hdot.
  unfold fix_all_git_symlinked.
  rewrite bind_eq, open_read_eq, Hs, Hm, bind_eq, open_read_eq. cbn.
  rewrite Ht, Hdot. unfold raise. now rewrite logged_logged.
Qed.


(** An iteration raises only what the containment test of the destination
    or the read of the placeholder raises. *)
Lemma fix_one_raises topdir name failures s s' e :
  fix_one topdir name failures s = (s', Raise e) ->
  is_file_into_dir (os_path_join topdir name) topdir = Raise e
  \/ io_open_read (os_path_join topdir (os_path_join topdir name)) (world s)
     = Raise e.
Proof.
  rewrite fix_one_eq. cbn zeta.
  destruct (is_file_into_dir (os_path_join topdir name) topdir) as [[|]|e0].
  2: discriminate.
  2: intros H; inv H; now left.
  destruct (os_path_isdir _ _); [discriminate|].
  destruct (io_open_read _ _) as [text|e0].
  2: intros H; inv H; now right.
  destruct (os_path_exists _ _); [|discriminate].
  destruct (is_file_into_dir (os_path_normpath _) topdir) as [[|]|];
    try discriminate.
  intros H.
  match type of H with copy_src ?a ?b ?c ?d = _ =>
    destruct (copy_src_total a b c d) as (s2 & n2 & evs & E & _) end.
  rewrite E in H. discriminate.
Qed.

(** So does the loop, for one of its names and in the file system it has
    come to. *)
Lemma fix_each_raises topdir relnames : forall failures s s' e,
  fix_each topdir relnames failures s = (s', Raise e) ->
  exists name w,
    In name relnames
    /\ (is_file_into_dir (os_path_join topdir name) topdir = Raise e
        \/ io_open_read (os_path_join topdir (os_path_join topdir name)) w
           = Raise e).
Proof.
  induction relnames as [|name rest IH]; intros failures s s' e H.
  - discriminate.
  - cbn [fix_each] in H. rewrite bind_eq in H.
    destruct (fix_one topdir name failures s) as [s1 [n1|e1]] eqn:E1.
    + destruct (IH _ _ _ _ H) as (name' & w & Hin & Hor).
      exists name', w. split; [now right|exact Hor].
    + inv H. exists name, (world s). split; [now left|].
      exact (fix_one_raises _ _ _ _ _ _ E1).
Qed.


(** An entry that passes every test reaches the copy. *)
Lemma fix_one_valid topdir name text src failures s :
  Spec.root_ok topdir ->
  Spec.valid_entry topdir name text src (world s) ->
  let dst := os_path_join topdir name in
  fix_one topdir name failures s =
  copy_src src dst failures
    (logged s [EvIsdir dst; EvOpen dst; EvExists src]).
Proof.
  intros Hroot [Hin Hnd Hholds Hsrc Hex Hsin]. cbn zeta.
  rewrite fix_one_eq. cbn zeta.
  rewrite (Spec.join_below _ Hroot), Hin, Hnd, Hholds, <- Hsrc, Hex, Hsin.
  reflexivity.
Qed.

Lemma run_reaches_loop topdir s stext text :
  io_open_read (topdir ++ SENTINEL)%string (world s) = Ok stext ->
  Py.startswith MARKER stext = false ->
  io_open_read (topdir ++ MANIFEST)%string (world s) = Ok text ->
  Py.startswith "." text = false ->
  fix_all_git_symlinked topdir s =
  fix_each topdir (relnames_of text) 0%Z
    (logged s [EvOpen (topdir ++ SENTINEL)%string;
               EvOpen (topdir ++ MANIFEST)%string]).
Proof.
  intros Hs Hm Ht Hdot. unfold fix_all_git_symlinked.
  rewrite bind_eq, open_read_eq, Hs, Hm, bind_eq, open_read_eq. cbn.
  now rewrite Ht, Hdot, logged_logged.
Qed.


Lemma fix_one_guarded topdir name failures s s' r :
  Spec.root_ok topdir ->
  fix_one topdir name failures s = (s', r) ->
  exists evs, trace s' = trace s ++ evs /\ Forall (guarded topdir) evs.
Proof.
  intros Hroot. rewrite fix_one_eq. cbn zeta.
  rewrite (Spec.join_below _ Hroot).
  destruct (is_file_into_dir (os_path_join topdir name) topdir)
    as [[|]|e] eqn:Hin.
  2,3: intros H; inv H; exists []; split; [now rewrite app_nil_r|constructor].
  assert (Gd : forall ev, (forall p, In p (Spec.paths_of ev) ->
                 p = os_path_join topdir name) -> guarded topdir ev).
  { intros ev Hev _ p Hp. rewrite (Hev p Hp). exact Hin. }
  assert (G1 : guarded topdir (EvIsdir (os_path_join topdir name)))
    by (apply Gd; cbn; intuition).
  assert (G2 : guarded topdir (EvOpen (os_path_join topdir name)))
    by (apply Gd; cbn; intuition).
  assert (G3 : forall src, guarded topdir (EvExists src))
    by (intros src H; discriminate H).
  destruct (os_path_isdir _ _).
  { intros H; inv H. eexists; split; [reflexivity|]. repeat constructor; auto. }
  destruct (io_open_read _ _) as [text|e].
  2:{ intros H; inv H. eexists; split; [reflexivity|].
      repeat constructor; auto. }
  destruct (os_path_exists _ _).
  2:{ intros H; inv H. eexists; split; [reflexivity|].
      repeat constructor; auto. }
  destruct (is_file_into_dir (os_path_normpath _) topdir) as [[|]|e] eqn:Hsrc.
  2,3: intros H; inv H; eexists; (split; [reflexivity|]);
       repeat constructor; auto.
  intros H.
  match type of H with copy_src ?a ?b ?c ?d = _ =>
    destruct (copy_src_total a b c d) as (s2 & n2 & evs & E & _ & Htr & Hp) end.
  rewrite E in H; inv H. rewrite Htr. cbn [trace logged].
  rewrite <- app_assoc. eexists; split; [reflexivity|].
  repeat (apply Forall_cons; auto).
  eapply Forall_impl; [|exact Hp].
  intros ev Hev _ p Hin'. destruct (Hev p Hin') as [->| ->]; assumption.
Qed.

Lemma fix_each_guarded topdir relnames : forall failures s s' r,
  Spec.root_ok topdir ->
  fix_each topdir relnames failures s = (s', r) ->
  exists evs, trace s' = trace s ++ evs /\ Forall (guarded topdir) evs.
Proof.
  induction relnames as [|name rest IH]; intros failures s s' r Hroot H.
  - inv H. exists []. split; [now rewrite app_nil_r|constructor].
  - cbn [fix_each] in H. rewrite bind_eq in H.
    destruct (fix_one topdir name failures s) as [s1 [n1|e]] eqn:E1.
    + destruct (fix_one_guarded _ _ _ _ _ _ Hroot E1) as (evs1 & T1 & F1).
      destruct (IH _ _ _ _ Hroot H) as (evs2 & T2 & F2).
      exists (evs1 ++ evs2). split.
      * now rewrite T2, T1, app_assoc.
      * apply Forall_app; auto.
    + inv H. exact (fix_one_guarded _ _ _ _ _ _ Hroot E1).
Qed.

(** X17: for a root as the data model has it, a run opens, removes and copies
    nothing and asks of nothing whether it is a directory, but on paths the
    containment test accepts; a destination it refuses ends the iteration
    with no call made, and a source it refuses ends it with the file system
    as it was.  The existence test of the source (line 100) is not covered:
    it comes before the containment test of the source (line 104). *)
Lemma only_existence_test_unguarded (topdir : string) :
  Spec.root_ok topdir ->
  (forall s s' r,
     fix_all_git_symlinked topdir s = (s', r) ->
     exists evs, trace s' = trace s ++ evs /\ Forall (guarded topdir) evs)
  /\ (forall name failures s,
        is_file_into_dir (os_path_join topdir name) topdir = Ok false ->
        fix_one topdir name failures s = (s, Ok failures))
  /\ (forall name failures s text,
        let dst := os_path_join topdir name in
        Spec.inside topdir dst ->
        os_path_isdir dst (world s) = false ->
        io_open_read dst (world s) = Ok text ->
        is_file_into_dir
          (os_path_normpath (os_path_join (os_path_dirname dst) text)) topdir
        = Ok false ->
        exists s',
          fix_one topdir name failures s = (s', Ok failures)
          /\ world s' = world s).
Proof.
  intros Hroot. split; [|split].
  - intros s s' r. unfold fix_all_git_symlinked.
    pose proof (Spec.sentinel_inside _ Hroot) as Hsi.
    pose proof (Spec.manifest_inside _ Hroot) as Hmi.
    assert (Gs : guarded topdir (EvOpen (topdir ++ SENTINEL)%string)).
    { intros _ p [<-|[]]. exact Hsi. }
    assert (Gm : guarded topdir (EvOpen (topdir ++ MANIFEST)%string)).
    { intros _ p [<-|[]]. exact Hmi. }
    rewrite bind_eq, open_read_eq.
    destruct (io_open_read _ _) as [stext|e]; cbn.
    2:{ intros H; inv H. eexists; split; [reflexivity|]. repeat constructor; auto. }
    destruct (Py.startswith MARKER stext).
    { intros H; inv H. eexists; split; [reflexivity|]. repeat constructor; auto. }
    rewrite bind_eq, open_read_eq. cbn. rewrite logged_logged. cbn [app].
    destruct (io_open_read _ _) as [text|e]; cbn.
    2:{ intros H; inv H. eexists; split; [reflexivity|]. repeat constructor; auto. }
    destruct (Py.startswith "." text).
    { intros H; inv H. eexists; split; [reflexivity|]. repeat constructor; auto. }
    intros H. apply fix_each_guarded in H; [|exact Hroot].
    destruct H as (evs & T & F). unfold logged in T. cbn in T.
    rewrite <- app_assoc in T. cbn in T.
    eexists; split; [exact T|]. repeat (apply Forall_cons; auto).
  - intros name failures s Hout. rewrite fix_one_eq. cbn zeta. now rewrite Hout.
  - intros name failures s text dst Hin Hnd Hread Hout. subst dst.
    rewrite fix_one_eq. cbn zeta.
    rewrite (Spec.join_below _ Hroot), Hin, Hnd, Hread, Hout.
    destruct (os_path_exists _ _); eauto.
Qed.

End Claims.

(** ** The claims that rest on the contract of the writers *)

Section Repair.
Context {P : Platform} {O : Observer P}.
Import Winutils Spec.
Local Open Scope list_scope.


(** The iteration for an entry whose source is a directory, neither the
    removal of the placeholder nor the copy failing. *)
Lemma fix_one_directory topdir name text src failures s w1 w2 :
  Spec.root_ok topdir ->
  Spec.valid_entry topdir name text src (world s) ->
  os_path_isdir src (world s) = true ->
  os_unlink (os_path_join topdir name) (world s) = (w1, Ok tt) ->
  shutil_copytree src (os_path_join topdir name) w1 = (w2, Ok tt) ->
  exists s',
    fix_one topdir name failures s = (s', Ok failures)
    /\ world s' = w2 /\ stdout s' = stdout s.
Proof.
  intros Hroot V Hdir Hun Hcopy.
  rewrite (fix_one_valid _ _ _ _ _ _ Hroot V). cbn zeta.
  rewrite copy_src_eq. cbn [world logged]. rewrite Hdir, Hun, Hcopy.
  eexists. repeat split; reflexivity.
Qed.


End Repair.

(** ** The file system in memory keeps the contract *)

Section MemFSFacts.
Import MemFS.
Local Open Scope list_scope.

Lemma assoc_set name v entries : assoc name (set name v entries) = Some v.
Proof.
  induction entries as [|[k w] rest IH]; cbn.
  - now rewrite String.eqb_refl.
  - destruct (String.eqb k name) eqn:E; cbn; now rewrite E.
Qed.

(** What has been written at a path is found there. *)
Lemma lookup_write parents path new : forall n n',
  write parents path new n = Some n' -> lookup path n' = Some new.
Proof.
  induction path as [|c rest IH]; intros n n' H.
  - cbn in H. now inv H.
  - cbn in H. destruct n as [|entries]; [discriminate|].
    destruct (assoc c entries) as [m|] eqn:Ea.
    + destruct (write parents rest new m) as [m'|] eqn:Ew; [|discriminate].
      inv H. cbn. rewrite assoc_set. eauto.
    + destruct rest as [|c' rest'].
      * inv H. cbn. now rewrite assoc_set.
      * destruct parents; [|discriminate].
        destruct (write true (c' :: rest') new (Dir [])) as [m'|] eqn:Ew;
          [|discriminate].
        inv H. cbn [lookup]. rewrite assoc_set. eauto.
Qed.

Theorem NT_keeps_the_contract : Laws NT_observer.
Proof.
  constructor; cbn.
  - intros p w. unfold NT.isdir, NT.isfile.
    destruct (NT.find p w) as [[|]|]; congruence.
  - intros p w. unfold NT.isdir.
    destruct (NT.find p w) as [[|]|]; congruence.
  - intros src dst w w'. unfold NT.copy2, NT.isdir, NT.open_read, NT.find.
    destruct (NT.locate src) as [ps|]; [|discriminate].
    destruct (NT.locate dst) as [pd|]; [|discriminate].
    destruct (lookup ps w) as [[content|]|]; try discriminate.
    destruct (lookup pd w) as [[|]|] eqn:Ed; try discriminate;
      destruct (same_path ps pd); try discriminate;
      destruct pd as [|c pd']; try discriminate;
      (destruct (write false (c :: pd') (File content) w) as [w1|] eqn:Ew;
       [|discriminate]);
      intros H _; inv H; now rewrite (lookup_write _ _ _ _ _ Ew).
  - intros src dst w w'. unfold NT.copytree, NT.isdir, NT.find.
    destruct (NT.locate src) as [ps|]; [|discriminate].
    destruct (NT.locate dst) as [pd|]; [|discriminate].
    destruct (lookup ps w) as [[|entries]|]; try discriminate.
    destruct (lookup pd w); try discriminate.
    destruct (deep_below ps pd).
    { destruct (write true pd (Dir []) w); discriminate. }
    destruct (write true pd (Dir entries) w) as [w1|] eqn:Ew; [|discriminate].
    intros H; inv H. now rewrite (lookup_write _ _ _ _ _ Ew).
Qed.

End MemFSFacts.

(** ** Roots with a drive letter *)

Section AbsoluteRoots.
Import ntpath Spec.

Lemma colon_is_no_sep : is_sep colon = false.
Proof. reflexivity. Qed.

Lemma sep_is_no_colon c : is_sep c = true -> Ascii.eqb c colon = false.
Proof.
  unfold is_sep. intros H. apply orb_true_iff in H.
  destruct H as [H|H]; apply Ascii.eqb_eq in H; subst; reflexivity.
Qed.

Lemma sep_lower c : is_sep c = true -> lower_char c = c.
Proof.
  unfold is_sep. intros H. apply orb_true_iff in H.
  destruct H as [H|H]; apply Ascii.eqb_eq in H; subst; reflexivity.
Qed.

Lemma colon_lower : lower_char colon = colon.
Proof. reflexivity. Qed.

Lemma splitdrive_drive c rest :
  splitdrive (drive_of c ++ rest) = (drive_of c, rest).
Proof.
  cbn -[is_sep]. rewrite colon_is_no_sep, andb_false_r. reflexivity.
Qed.

Lemma until_sep_spec s :
  s = (fst (until_sep s) ++ snd (until_sep s))%string
  /\ (snd (until_sep s) = EmptyString
      \/ starts_with_sep (snd (until_sep s)) = true).
Proof.
  induction s as [|c s' [IH1 IH2]]; cbn -[is_sep]; [auto|].
  destruct (is_sep c) eqn:E; cbn -[is_sep].
  - split; [reflexivity|]. right. exact E.
  - destruct (until_sep s') as [a b]. cbn in *. split; [congruence|exact IH2].
Qed.

Lemma append_empty_r (s : string) : (s ++ "")%string = s.
Proof. induction s; cbn; congruence. Qed.

Lemma append_assoc (a b c : string) :
  ((a ++ b) ++ c)%string = (a ++ b ++ c)%string.
Proof. induction a; cbn; congruence. Qed.

Lemma cut_spec n : forall s,
  s = (fst (cut n s) ++ snd (cut n s))%string.
Proof.
  induction n as [|n IH]; intros [|c s']; try reflexivity.
  cbn. specialize (IH s'). destruct (cut n s') as [a b]. cbn in *. congruence.
Qed.

(** The three shapes of what [splitdrive] gives: no drive; a letter and a
    colon; a UNC or device drive, which begins with two separators and is
    followed by nothing or by a separator. *)
Lemma splitdrive_cases p :
  splitdrive p = (EmptyString, p)
  \/ (exists c rest, p = (drive_of c ++ rest)%string
                     /\ splitdrive p = (drive_of c, rest))
  \/ (exists c0 c1 d rest,
        splitdrive p = (String c0 (String c1 d), rest)
        /\ p = (String c0 (String c1 d) ++ rest)%string
        /\ is_sep c1 = true
        /\ (rest = EmptyString \/ starts_with_sep rest = true)).
Proof.
  destruct p as [|c0 [|c1 rest]]; auto.
  unfold splitdrive.
  destruct (is_sep c0 && is_sep c1) eqn:E.
  - apply andb_true_iff in E. destruct E as [_ E1].
    right; right.
    assert (Hwhole : exists c2 c3 d rest0,
      (String c0 (String c1 rest), EmptyString)
      = (String c2 (String c3 d), rest0)
      /\ String c0 (String c1 rest)
         = (String c2 (String c3 d) ++ rest0)%string
      /\ is_sep c3 = true
      /\ (rest0 = EmptyString \/ starts_with_sep rest0 = true)).
    { exists c0, c1, rest, EmptyString. rewrite append_empty_r. auto. }
    pose proof (cut_spec (if has_unc_prefix (String c0 (String c1 rest))
                          then 6 else 0) rest) as Hcut.
    destruct (cut _ rest) as [lead r0]. cbn [fst snd] in Hcut.
    destruct (until_sep_spec r0) as [Hr0 _].
    destruct (until_sep r0) as [host r1]. cbn [fst snd] in Hr0.
    destruct r1 as [|s1 r2]; [exact Hwhole|].
    destruct (until_sep_spec r2) as [Hr2 Ht].
    destruct (until_sep r2) as [share tail]. cbn [fst snd] in Hr2, Ht.
    destruct tail as [|t0 tail']; [exact Hwhole|].
    exists c0, c1, (lead ++ host ++ String s1 share)%string, (String t0 tail').
    split; [reflexivity|]. split; [|split; [exact E1|exact Ht]].
    cbn [append]. do 2 f_equal.
    rewrite Hcut, Hr0, Hr2, !append_assoc. reflexivity.
  - destruct (Ascii.eqb_spec c1 colon) as [->|]; auto.
    right; left. now exists c0, rest.
Qed.

Lemma starts_with_sep_app p q :
  starts_with_sep p = true -> starts_with_sep (p ++ q) = true.
Proof. destruct p; [discriminate|auto]. Qed.

Lemma attach_letter c q : attach (drive_of c) q = (drive_of c ++ q)%string.
Proof.
  unfold attach. cbn -[is_sep]. now rewrite !andb_false_r.
Qed.

Lemma attach_absolute d q :
  q = EmptyString \/ starts_with_sep q = true -> attach d q = (d ++ q)%string.
Proof.
  unfold attach. intros [->| ->]; [reflexivity|].
  now rewrite andb_false_r.
Qed.

(** [join] of a root with a drive letter and a path without a drive. *)
Lemma join_no_drive c rp name :
  splitdrive name = (EmptyString, name) ->
  join (drive_of c ++ rp) name =
  (drive_of c ++ (if starts_with_sep name then name
                  else with_sep rp ++ name))%string.
Proof.
  intros E. unfold join. rewrite splitdrive_drive, E.
  cbn [Py.truthy andb orb negb drive_of]. fold (drive_of c).
  destruct (starts_with_sep name); now rewrite attach_letter.
Qed.

(** [join] of a root with a drive letter and a path with one. *)
Lemma join_letter c rp d rest :
  join (drive_of c ++ rp) (drive_of d ++ rest) =
  if starts_with_sep rest then (drive_of d ++ rest)%string
  else if negb (String.eqb (drive_of d) (drive_of c)) then
         if negb (String.eqb (lower (drive_of d)) (lower (drive_of c)))
         then (drive_of d ++ rest)%string
         else (drive_of d ++ with_sep rp ++ rest)%string
       else (drive_of c ++ with_sep rp ++ rest)%string.
Proof.
  unfold join. rewrite !splitdrive_drive.
  destruct (starts_with_sep rest).
  - cbn [Py.truthy orb drive_of]. fold (drive_of d). apply attach_letter.
  - replace (Py.truthy (drive_of d)) with true by reflexivity.
    cbn [andb].
    destruct (negb (String.eqb (drive_of d) (drive_of c)));
      [destruct (negb (String.eqb (lower (drive_of d)) (lower (drive_of c))))|];
      apply attach_letter.
Qed.

(** Joining a root that has a drive letter and starts at the top of its
    drive with a path already joined to it changes nothing. *)
Lemma join_join c rp name :
  starts_with_sep rp = true ->
  let topdir := (drive_of c ++ rp)%string in
  join topdir (join topdir name) = join topdir name.
Proof.
  intros Hrp topdir.
  assert (Hmid : forall q, starts_with_sep (with_sep rp ++ q) = true).
  { intros q. apply starts_with_sep_app. unfold with_sep.
    destruct (Py.truthy rp && negb (ends_with_sep rp));
      [now apply starts_with_sep_app|exact Hrp]. }
  assert (Habs : forall x R, starts_with_sep R = true ->
            join (drive_of c ++ rp) (drive_of x ++ R)
            = (drive_of x ++ R)%string).
  { intros x R HR. now rewrite join_letter, HR. }
  subst topdir.
  destruct (splitdrive_cases name)
    as [E|[(d & rest & -> & E)|(c0 & c1 & d & rest & E & Hname & Hc1 & Hrest)]].
  - (* no drive in [name] *)
    rewrite (join_no_drive _ _ _ E).
    destruct (starts_with_sep name) eqn:Hn; apply Habs; auto.
  - (* [name] has the drive letter [d] *)
    rewrite (join_letter c rp d rest).
    destruct (starts_with_sep rest) eqn:Hn; [now apply Habs|].
    destruct (negb (String.eqb (drive_of d) (drive_of c))) eqn:Hne.
    + destruct (negb (String.eqb (lower (drive_of d)) (lower (drive_of c))))
        eqn:Hl; [|now apply Habs].
      now rewrite join_letter, Hn, Hne, Hl.
    + now apply Habs.
  - (* [name] has a UNC drive: the root is ignored *)
    assert (Hj : join (drive_of c ++ rp) name = name).
    { unfold join. rewrite splitdrive_drive, E.
      assert (Hd : String.eqb (String c0 (String c1 d)) (drive_of c) = false).
      { cbn -[Ascii.eqb]. rewrite (sep_is_no_colon _ Hc1).
        cbn [andb]. apply andb_false_r. }
      assert (Hl : String.eqb (lower (String c0 (String c1 d)))
                     (lower (drive_of c)) = false).
      { cbn -[Ascii.eqb lower_char]. rewrite (sep_lower _ Hc1), colon_lower.
        rewrite (sep_is_no_colon _ Hc1). cbn [andb]. apply andb_false_r. }
      destruct Hrest as [->|Hs].
      - cbn [starts_with_sep Py.truthy andb negb]. rewrite Hd, Hl. cbn [negb].
        rewrite attach_absolute by auto. now rewrite Hname.
      - rewrite Hs. cbn [Py.truthy orb].
        rewrite attach_absolute by auto. now rewrite Hname. }
    now rewrite !Hj.
Qed.

End AbsoluteRoots.

(** ** The names of the manifest *)

Section Manifest.
Import Winutils Spec.

Lemma snoc_append (cur : string) (c : ascii) (w : string) :
  (Spec.snoc cur c ++ w)%string = (cur ++ String c w)%string.
Proof. unfold Spec.snoc. induction cur; cbn; congruence. Qed.

Lemma split_not_nil sep s : Py.split sep s <> [].
Proof.
  destruct s as [|c s']; cbn; [discriminate|].
  destruct (Ascii.eqb c sep); [discriminate|].
  destruct (Py.split sep s'); discriminate.
Qed.

(** Reading line by line gives the pieces of [split]. *)
Lemma spec_lines_split s : forall cur,
  Spec.spec_lines cur s =
  match Py.split Py.LF s with
  | w :: ws => (cur ++ w)%string :: ws
  | [] => [cur]
  end.
Proof.
  unfold Py.LF.
  induction s as [|c s' IH]; intros cur; cbn -[Ascii.eqb].
  - now rewrite append_empty_r.
  - destruct (Ascii.eqb c "010").
    + rewrite append_empty_r, IH.
      destruct (Py.split "010" s') as [|w ws] eqn:E; [|reflexivity].
      now apply split_not_nil in E.
    + rewrite IH.
      destruct (Py.split "010" s') as [|w ws] eqn:E.
      * now apply split_not_nil in E.
      * now rewrite snoc_append.
Qed.

(** The white space of the specification is that of [str.isspace]. *)
Lemma is_white_isspace c : Spec.is_white c = Py.isspace c.
Proof. destruct c as [[] [] [] [] [] [] [] []]; reflexivity. Qed.

Lemma drop_white_lstrip s :
  Spec.drop_white (list_ascii_of_string s)
  = list_ascii_of_string (Py.lstrip s).
Proof.
  induction s as [|c s' IH]; [reflexivity|].
  cbn -[Py.isspace Spec.is_white]. rewrite is_white_isspace.
  destruct (Py.isspace c); [exact IH|reflexivity].
Qed.

Lemma drop_white_app (a b : list ascii) :
  Spec.drop_white (a ++ b)%list =
  match Spec.drop_white a with
  | [] => Spec.drop_white b
  | r => (r ++ b)%list
  end.
Proof.
  induction a as [|c a' IH]; [reflexivity|].
  cbn -[Spec.is_white]. destruct (Spec.is_white c); [exact IH|reflexivity].
Qed.

(** What a line ends with is what the line read backwards begins with. *)
Lemma drop_white_rstrip s :
  rev (Spec.drop_white (rev (list_ascii_of_string s)))
  = list_ascii_of_string (Py.rstrip s).
Proof.
  induction s as [|c s' IH]; [reflexivity|].
  cbn [list_ascii_of_string rev Py.rstrip]. rewrite drop_white_app.
  destruct (Spec.drop_white (rev (list_ascii_of_string s'))) as [|d r].
  - cbn [rev] in IH. destruct (Py.rstrip s'); [|discriminate].
    cbn -[Py.isspace Spec.is_white]. rewrite is_white_isspace.
    destruct (Py.isspace c); reflexivity.
  - rewrite rev_app_distr, IH.
    destruct (Py.rstrip s') as [|e t]; [|reflexivity].
    cbn [rev] in IH. now apply app_eq_nil in IH.
Qed.

(** Trimming, as the specification has it, is [strip]. *)
Lemma spec_trim_strip s : Spec.spec_trim s = Py.strip s.
Proof.
  unfold Spec.spec_trim, Py.strip.
  now rewrite drop_white_lstrip, drop_white_rstrip,
    string_of_list_ascii_of_string.
Qed.

(** The convention of the host, as the specification has it, is what
    [replace] gives. *)
Lemma spec_normalize_replace s :
  Spec.spec_normalize s = Py.replace ntpath.altsep ntpath.sep s.
Proof.
  unfold Spec.spec_normalize.
  induction s as [|c s' IH]; [reflexivity|].
  cbn [list_ascii_of_string map string_of_list_ascii Py.replace].
  now rewrite IH.
Qed.

(** Neither separator is white space. *)
Lemma isspace_normalized c :
  Py.isspace (if Ascii.eqb c ntpath.altsep then ntpath.sep else c)
  = Py.isspace c.
Proof. destruct (Ascii.eqb_spec c ntpath.altsep) as [->|]; reflexivity. Qed.

Lemma lstrip_normalize s :
  Py.lstrip (Py.replace ntpath.altsep ntpath.sep s) = Py.replace ntpath.altsep ntpath.sep (Py.lstrip s).
Proof.
  induction s as [|c s' IH]; [reflexivity|].
  cbn -[Py.isspace Ascii.eqb]. rewrite isspace_normalized.
  destruct (Py.isspace c); [exact IH|reflexivity].
Qed.

Lemma rstrip_normalize s :
  Py.rstrip (Py.replace ntpath.altsep ntpath.sep s) = Py.replace ntpath.altsep ntpath.sep (Py.rstrip s).
Proof.
  induction s as [|c s' IH]; [reflexivity|].
  cbn -[Py.isspace Ascii.eqb]. rewrite IH, isspace_normalized.
  destruct (Py.rstrip s'); cbn -[Py.isspace Ascii.eqb].
  - destruct (Py.isspace c); reflexivity.
  - reflexivity.
Qed.

(** Trimming and putting the separators right can be done in either
    order. *)
Lemma strip_normalize s :
  Py.strip (Py.replace ntpath.altsep ntpath.sep s) = Py.replace ntpath.altsep ntpath.sep (Py.strip s).
Proof. unfold Py.strip. now rewrite lstrip_normalize, rstrip_normalize. Qed.

Lemma relnames_of_lines lines :
  filter Py.truthy
    (map (fun name => Py.replace "/" "\" (Py.strip name)) lines)
  = Spec.spec_entries lines.
Proof.
  induction lines as [|line rest IH]; [reflexivity|].
  cbn [map filter Spec.spec_entries].
  rewrite spec_trim_strip, spec_normalize_replace, strip_normalize, IH.
  unfold ntpath.altsep, ntpath.sep.
  destruct (Py.replace "/" "\" (Py.strip line)); reflexivity.
Qed.

Lemma lstrip_tight s : tight_left (Py.lstrip s).
Proof.
  induction s as [|c s' IH]; cbn -[Py.isspace]; [exact I|].
  destruct (Py.isspace c) eqn:E; [exact IH|exact E].
Qed.

Lemma lstrip_of_tight s : tight_left s -> Py.lstrip s = s.
Proof. destruct s; cbn -[Py.isspace]; [reflexivity|now intros ->]. Qed.

Lemma rstrip_tight s : tight_left s -> tight_left (Py.rstrip s).
Proof.
  destruct s as [|c s']; cbn -[Py.isspace]; [auto|].
  intros H. destruct (Py.rstrip s'); cbn -[Py.isspace]; [|exact H].
  now rewrite H.
Qed.

Lemma rstrip_idempotent s : Py.rstrip (Py.rstrip s) = Py.rstrip s.
Proof.
  induction s as [|c s' IH]; [reflexivity|].
  cbn -[Py.isspace].
  destruct (Py.rstrip s') as [|d r] eqn:E.
  - destruct (Py.isspace c) eqn:Ec; [reflexivity|].
    cbn -[Py.isspace]. now rewrite Ec.
  - cbn -[Py.isspace]. cbn -[Py.isspace] in IH.
    destruct (match Py.rstrip r with
              | EmptyString =>
                  if Py.isspace d then EmptyString else String d EmptyString
              | String a s0 => String d (String a s0)
              end) eqn:E2; [discriminate|].
    now rewrite <- IH.
Qed.

Lemma strip_idempotent s : Py.strip (Py.strip s) = Py.strip s.
Proof.
  unfold Py.strip.
  rewrite (lstrip_of_tight (Py.rstrip (Py.lstrip s))).
  - apply rstrip_idempotent.
  - apply rstrip_tight, lstrip_tight.
Qed.

Lemma normalize_no_altsep s :
  Spec.contains ntpath.altsep (Py.replace ntpath.altsep ntpath.sep s) = false.
Proof.
  induction s as [|c s' IH]; [reflexivity|].
  cbn -[Ascii.eqb]. rewrite IH, orb_false_r.
  destruct (Ascii.eqb_spec c ntpath.altsep) as [->|Hc]; [reflexivity|].
  now apply Ascii.eqb_neq.
Qed.

(** [rstrip] leaves no white space at the end, [lstrip] none at the
    beginning. *)
Lemma rstrip_bare s : Spec.bare (Spec.last_char (Py.rstrip s)).
Proof.
  induction s as [|c s' IH]; [exact I|].
  cbn -[Py.isspace Spec.is_white].
  destruct (Py.rstrip s') as [|d r].
  - destruct (Py.isspace c) eqn:E; [exact I|].
    cbn -[Spec.is_white]. now rewrite is_white_isspace.
  - exact IH.
Qed.

Lemma tight_left_bare s : tight_left s -> Spec.bare (Spec.first_char s).
Proof.
  destruct s as [|c s']; cbn -[Py.isspace Spec.is_white]; [auto|].
  intros H. now rewrite is_white_isspace.
Qed.

(** C9: the names the loop runs over are the lines of the manifest in
    order, each trimmed of the white space around it and with its
    separators in the convention of Windows, the empty ones left out; no name
    is empty, begins or ends with white space or holds a forward slash.  The
    lines, the trimming and the convention are those of [Spec], written
    without [split], [strip] and [replace]. *)
Theorem manifest_names_as_specified (text : string) :
  relnames_of text = Spec.spec_manifest text
  /\ Forall (fun name => name <> EmptyString
                         /\ Spec.bare (Spec.first_char name)
                         /\ Spec.bare (Spec.last_char name)
                         /\ Spec.contains "/" name = false)
       (relnames_of text).
Proof.
  split.
  - unfold relnames_of, Spec.spec_manifest.
    rewrite relnames_of_lines, spec_lines_split.
    destruct (Py.split Py.LF text) as [|w ws] eqn:E; [|reflexivity].
    now apply split_not_nil in E.
  - unfold relnames_of. apply Forall_forall. intros name Hin.
    apply filter_In in Hin. destruct Hin as [Hin Htruthy].
    apply in_map_iff in Hin. destruct Hin as (line & <- & _).
    change (Py.replace "/" "\" (Py.strip line))
      with (Py.replace ntpath.altsep ntpath.sep (Py.strip line)) in *.
    assert (Hstrip : Py.strip (Py.replace ntpath.altsep ntpath.sep (Py.strip line))
                     = Py.replace ntpath.altsep ntpath.sep (Py.strip line))
      by now rewrite strip_normalize, strip_idempotent.
    split; [|split; [|split]].
    + intros E. rewrite E in Htruthy. discriminate.
    + rewrite <- Hstrip. unfold Py.strip at 1.
      apply tight_left_bare, rstrip_tight, lstrip_tight.
    + rewrite <- Hstrip. unfold Py.strip at 1. apply rstrip_bare.
    + apply normalize_no_altsep.
Qed.

End Manifest.

(** ** Runs on Windows over the file system in memory *)

Section Runs.
Import Winutils Spec Examples.
Local Open Scope list_scope.

Lemma pair_of_snd {A B} (x : A * B) (b : B) : snd x = b -> x = (fst x, b).
Proof. destruct x; cbn; congruence. Defined.

(** [C:\repo] is a root as the data model has it. *)
Lemma root_ok_ROOT : Spec.root_ok (P := NT.platform) ROOT.
Proof.
  constructor.
  - intros name. exact (join_join "C" "\repo" name eq_refl).
  - vm_compute. reflexivity.
  - vm_compute. reflexivity.
Qed.

(** C1, against the claim: a manifest whose content starts with a separator
    is not refused; the run returns 0 and has repaired the entry that
    follows. *)
Lemma leading_separator_is_not_fatal :
  NT.open_read (ROOT ++ MANIFEST)%string leading_separator
    = Ok (lines2 "/docs/a.txt" "docs/a.txt")
  /\ ntpath.starts_with_sep (lines2 "/docs/a.txt" "docs/a.txt") = true
  /\ snd (NT.run ROOT leading_separator) = Ok 0%Z
  /\ NT.open_read "C:\repo\docs\a.txt"
       (world (fst (NT.run ROOT leading_separator)))
     = Ok "hello".
Proof. vm_compute. repeat split; reflexivity. Qed.

Lemma leading_dot_is_fatal_witness :
  NT.run ROOT leading_dot =
  (at_state leading_dot
     [EvOpen (ROOT ++ SENTINEL)%string; EvOpen (ROOT ++ MANIFEST)%string] [],
   Raise (Exception BAD_DATA)).
Proof.
  apply (leading_dot_is_fatal (P := NT.platform) ROOT (start leading_dot)
           BROKEN (lines2 "./docs/a.txt" ""));
    vm_compute; reflexivity.
Defined.



(** C3, where the code departs from it.  The second entry of the manifest
    is [../other/d:x]; joined with the root it is [C:\repo\..\other\d:x], the
    file [d:x] of [C:\other], which is not below the root.  Its relative path
    from the root is [d:x]: [os.path.join] takes [d:] for a drive and drops
    the [..\other] before it.  That path begins with no dot, so that the
    containment test accepts the destination, and the run reads the file
    and copies [C:\repo\real\a.txt], which it names, over it. *)
Theorem path_outside_the_root_is_read_and_written :
  relnames_of (lines2 "docs/a.txt" "../other/d:x")
    = ["docs\a.txt"; "..\other\d:x"]
  /\ ntpath.join ROOT "..\other\d:x" = "C:\repo\..\other\d:x"
  /\ NT.locate ROOT = Some ["repo"]
  /\ NT.locate "C:\repo\..\other\d:x" = Some ["other"; "d:x"]
  /\ NT.below ROOT "C:\repo\..\other\d:x" = false
  /\ ntpath.relpath NT.CWD "C:\repo\..\other\d:x" ROOT = Ok "d:x"
  /\ is_file_into_dir (P := NT.platform) "C:\repo\..\other\d:x" ROOT = Ok true
  /\ NT.open_read "C:\other\d:x" colon_escape = Ok "../repo/real/a.txt"
  /\ trace (fst (NT.run ROOT colon_escape)) =
     [EvOpen "C:\repo\nikola\data\symlink-test-link.txt";
      EvOpen "C:\repo\nikola\data\symlinked.txt";
      EvIsdir "C:\repo\docs\a.txt"; EvOpen "C:\repo\docs\a.txt";
      EvExists "C:\repo\real\a.txt"; EvIsdir "C:\repo\real\a.txt";
      EvCopy2 "C:\repo\real\a.txt" "C:\repo\docs\a.txt";
      EvIsdir "C:\repo\..\other\d:x"; EvOpen "C:\repo\..\other\d:x";
      EvExists "C:\repo\real\a.txt"; EvIsdir "C:\repo\real\a.txt";
      EvCopy2 "C:\repo\real\a.txt" "C:\repo\..\other\d:x"]
  /\ snd (NT.run ROOT colon_escape) = Ok 0%Z
  /\ NT.open_read "C:\other\d:x" (world (fst (NT.run ROOT colon_escape)))
     = Ok "hello".
Proof. repeat split; vm_compute; reflexivity. Qed.

(** C4, against the claim: the relative path of the root from itself is
    [.], which begins with no parent-directory segment, and the answer is
    [False]. *)
Lemma root_is_not_into_itself :
  ntpath.relpath NT.CWD ROOT ROOT = Ok "."
  /\ Spec.begins_with_pardir "." = false
  /\ is_file_into_dir (P := NT.platform) ROOT ROOT = Ok false.
Proof. vm_compute. repeat split; reflexivity. Qed.

(** The same answer for a file of the root whose name begins with a dot. *)
Lemma dot_file_is_not_into_root :
  ntpath.relpath NT.CWD "C:\repo\.gitignore" ROOT
    = Ok ".gitignore"
  /\ Spec.begins_with_pardir ".gitignore" = false
  /\ is_file_into_dir (P := NT.platform) "C:\repo\.gitignore" ROOT = Ok false.
Proof. vm_compute. repeat split; reflexivity. Qed.

Lemma marker_short_circuits_witness :
  NT.run ROOT links_ok =
    (at_state links_ok [EvOpen (ROOT ++ SENTINEL)%string] [], Ok (-1)%Z)
  /\ (forall relnames s0 s1 n,
        fix_each (P := NT.platform) ROOT relnames 0%Z s0 = (s1, Ok n) ->
        (0 <= n)%Z).
Proof.
  apply (marker_short_circuits (P := NT.platform) ROOT (start links_ok)
           (lines2 "NIKOLA_SYMLINKS=OK" ""));
    vm_compute; reflexivity.
Defined.





Lemma return_value_bounds_witness :
  1%Z = (-1)%Z
  \/ exists text,
       NT.open_read (ROOT ++ MANIFEST)%string failing_copy = Ok text
       /\ (0 <= 1 <= Z.of_nat (List.length (relnames_of text)))%Z.
Proof.
  apply (return_value_bounds (P := NT.platform) ROOT (start failing_copy)
           (fst (fix_all_git_symlinked ROOT (start failing_copy))) 1%Z).
  apply (pair_of_snd (fix_all_git_symlinked ROOT (start failing_copy))).
  vm_compute. reflexivity.
Defined.

End Runs.

(** ** Further properties of a run, whatever the platform *)

Section Runs_in_general.
Context {P : Platform}.
Import Winutils Spec.
Local Open Scope list_scope.

(** The five ways of a run: the sentinel cannot be read; it carries the
    marker; the manifest cannot be read; it starts with a dot; the loop. *)
Lemma run_inversion topdir s s' r :
  fix_all_git_symlinked topdir s = (s', r) ->
  let s1 := logged s [EvOpen (topdir ++ SENTINEL)%string] in
  let s2 := logged s [EvOpen (topdir ++ SENTINEL)%string;
                      EvOpen (topdir ++ MANIFEST)%string] in
  (exists e,
     io_open_read (topdir ++ SENTINEL)%string (world s) = Raise e
     /\ s' = s1 /\ r = Raise e)
  \/ (exists stext,
        io_open_read (topdir ++ SENTINEL)%string (world s) = Ok stext
        /\ Py.startswith MARKER stext = true
        /\ s' = s1 /\ r = Ok (-1)%Z)
  \/ (exists stext,
        io_open_read (topdir ++ SENTINEL)%string (world s) = Ok stext
        /\ Py.startswith MARKER stext = false
        /\ ((exists e,
               io_open_read (topdir ++ MANIFEST)%string (world s) = Raise e
               /\ s' = s2 /\ r = Raise e)
            \/ (exists text,
                  io_open_read (topdir ++ MANIFEST)%string (world s) = Ok text
                  /\ ((Py.startswith "." text = true
                       /\ s' = s2 /\ r = Raise (Exception BAD_DATA))
                      \/ (Py.startswith "." text = false
                          /\ fix_each topdir (relnames_of text) 0%Z s2
                             = (s', r)))))).
Proof.
  cbn zeta. unfold fix_all_git_symlinked. rewrite bind_eq, open_read_eq.
  destruct (io_open_read (topdir ++ SENTINEL)%string (world s))
    as [stext|e] eqn:Hs; cbn.
  2:{ intros H; inv H. left. eauto. }
  destruct (Py.startswith MARKER stext) eqn:Hm.
  { intros H; inv H. right; left. eauto 6. }
  rewrite bind_eq, open_read_eq. cbn. rewrite logged_logged. cbn [app].
  destruct (io_open_read (topdir ++ MANIFEST)%string (world s))
    as [text|e] eqn:Ht; cbn.
  2:{ intros H; inv H. right; right. exists stext. eauto 8. }
  destruct (Py.startswith "." text) eqn:Hdot.
  - intros H; inv H. right; right. exists stext. repeat split; auto.
    right. exists text. split; auto.
  - intros H. right; right. exists stext. repeat split; auto.
    right. exists text. split; auto.
Qed.

(** The loop over two lists in a row is the loop over the first, then the
    loop over the second from the count and the state the first has left. *)
Lemma fix_each_app topdir l1 : forall l2 failures s,
  fix_each topdir (l1 ++ l2) failures s =
  bind (fix_each topdir l1 failures) (fix_each topdir l2) s.
Proof.
  induction l1 as [|name rest IH]; intros l2 failures s.
  - reflexivity.
  - cbn [app fix_each]. rewrite !bind_eq.
    destruct (fix_one topdir name failures s) as [s1 [n1|e]]; [|reflexivity].
    rewrite IH. now rewrite bind_eq.
Qed.

(** What one iteration adds to the log and to the console. *)
Lemma fix_one_summary topdir name failures s s' r :
  fix_one topdir name failures s = (s', r) ->
  exists evs out,
    trace s' = trace s ++ evs
    /\ stdout s' = stdout s ++ out
    /\ Forall (fun ev => forall d, written ev = Some d ->
                         d = os_path_join topdir name) evs
    /\ ((out = [] /\ (r = Ok failures \/ exists e, r = Raise e))
        \/ (exists src,
              out = diagnostic src (os_path_join topdir name)
              /\ r = Ok (failures + 1)%Z)).
Proof.
  rewrite fix_one_eq. cbn zeta.
  set (dst := os_path_join topdir name).
  assert (Hquiet : forall evs res,
    Forall (fun ev => written ev = None) evs ->
    (res = Ok failures \/ exists e, res = Raise e) ->
    (logged s evs, res) = (s', r) ->
    exists evs' out,
      trace s' = trace s ++ evs' /\ stdout s' = stdout s ++ out
      /\ Forall (fun ev => forall d, written ev = Some d -> d = dst) evs'
      /\ ((out = [] /\ (r = Ok failures \/ exists e, r = Raise e))
          \/ (exists src, out = diagnostic src dst
                          /\ r = Ok (failures + 1)%Z))).
  { intros evs res Hev Hres H. inv H. exists evs, []. cbn.
    rewrite app_nil_r. repeat split; auto.
    eapply Forall_impl; [|exact Hev]. cbn. intros ev -> d Hd. discriminate. }
  destruct (is_file_into_dir dst topdir) as [[|]|e].
  2:{ rewrite <- (logged_nil s) at 1. apply Hquiet; auto. }
  2:{ rewrite <- (logged_nil s) at 1. apply Hquiet; eauto. }
  destruct (os_path_isdir dst (world s)).
  { apply Hquiet; auto. }
  destruct (io_open_read _ _) as [text|e].
  2:{ apply Hquiet; eauto. }
  set (src := os_path_normpath _).
  destruct (os_path_exists src (world s)).
  2:{ apply Hquiet; auto. }
  destruct (is_file_into_dir src topdir) as [[|]|e].
  2,3: apply Hquiet; auto.
  rewrite copy_src_eq. cbn [world trace stdout logged].
  assert (Hw : forall evs,
    evs = [EvUnlink dst] \/ evs = [EvUnlink dst; EvCopytree src dst]
    \/ evs = [EvCopy2 src dst] ->
    Forall (fun ev => forall d, written ev = Some d -> d = dst)
      ([EvIsdir dst; EvOpen (os_path_join topdir dst); EvExists src;
        EvIsdir src] ++ evs)).
  { intros evs [->|[->| ->]]; repeat constructor; cbn; congruence. }
  destruct (os_path_isdir src (world s)).
  - destruct (os_unlink dst (world s)) as [w1 [[]|e1]].
    + destruct (shutil_copytree src dst w1) as [w2 [[]|e2]];
        intros H; inv H; cbn; rewrite <- app_assoc; cbn;
        eexists _, _; (split; [reflexivity|]).
      * split; [symmetry; apply app_nil_r|]. split; [apply (Hw _); auto|].
        left; auto.
      * split; [reflexivity|]. split; [apply (Hw _); auto|]. right; eauto.
    + intros H; inv H; cbn; rewrite <- app_assoc; cbn.
      eexists _, _; (split; [reflexivity|]).
      split; [reflexivity|]. split; [apply (Hw _); auto|]. right; eauto.
  - destruct (shutil_copy2 src dst (world s)) as [w1 [[]|e1]];
      intros H; inv H; cbn; rewrite <- app_assoc; cbn;
      eexists _, _; (split; [reflexivity|]).
    + split; [symmetry; apply app_nil_r|]. split; [apply (Hw _); auto|].
      left; auto.
    + split; [reflexivity|]. split; [apply (Hw _); auto|]. right; eauto.
Qed.

(** What the loop adds to the log and to the console. *)
Lemma fix_each_summary topdir relnames : forall failures s s' r,
  fix_each topdir relnames failures s = (s', r) ->
  exists evs reports,
    trace s' = trace s ++ evs
    /\ stdout s' = stdout s ++ reports_lines reports
    /\ Forall (fun ev => forall d, written ev = Some d ->
                 exists name, In name relnames
                              /\ d = os_path_join topdir name) evs
    /\ (forall n, r = Ok n ->
          n = (failures + Z.of_nat (List.length reports))%Z).
Proof.
  induction relnames as [|name rest IH]; intros failures s s' r H.
  - inv H. exists [], []. cbn. rewrite !app_nil_r. repeat split; auto.
    intros n Hn; inv Hn. lia.
  - cbn [fix_each] in H. rewrite bind_eq in H.
    destruct (fix_one topdir name failures s) as [s1 r1] eqn:E1.
    destruct (fix_one_summary _ _ _ _ _ _ E1)
      as (evs1 & out & T1 & O1 & W1 & Hcase).
    assert (W1' : Forall (fun ev => forall d, written ev = Some d ->
                    exists name0, In name0 (name :: rest)
                                  /\ d = os_path_join topdir name0) evs1).
    { eapply Forall_impl; [|exact W1]. cbn. intros ev Hev d Hd.
      exists name. split; [now left|auto]. }
    destruct Hcase as [[-> [->|[e ->]]]|(src & -> & ->)].
    + destruct (IH _ _ _ _ H) as (evs2 & reports & T2 & O2 & W2 & Hn).
      exists (evs1 ++ evs2), reports. rewrite T2, T1, O2, O1, app_nil_r.
      rewrite app_assoc. repeat split; auto.
      apply Forall_app. split; [exact W1'|].
      eapply Forall_impl; [|exact W2]. cbn.
      intros ev Hev d Hd. destruct (Hev d Hd) as (n0 & Hin & ->).
      exists n0. split; [now right|reflexivity].
    + inv H. exists evs1, []. cbn. rewrite app_nil_r in O1.
      rewrite app_nil_r. repeat split; auto. intros n Hn; discriminate.
    + destruct (IH _ _ _ _ H) as (evs2 & reports & T2 & O2 & W2 & Hn).
      exists (evs1 ++ evs2), ((src, os_path_join topdir name) :: reports).
      rewrite T2, T1, O2, O1. split; [now rewrite <- app_assoc|].
      split; [unfold reports_lines; cbn; now rewrite <- app_assoc|]. split.
      * apply Forall_app. split; [exact W1'|].
        eapply Forall_impl; [|exact W2]. cbn.
        intros ev Hev d Hd. destruct (Hev d Hd) as (n0 & Hin & ->).
        exists n0. split; [now right|reflexivity].
      * intros n Hr. rewrite (Hn n Hr). cbn [List.length]. lia.
Qed.



(** X2: when the sentinel cannot be read, or the sentinel is read without
    the marker and the manifest cannot be read, the run raises what the read
    raised, with the file system and the console as they were. *)
Theorem unreadable_sentinel_or_manifest_is_fatal
  (topdir : string) (s : state) (e : exn) :
  io_open_read (topdir ++ SENTINEL)%string (world s) = Raise e
  \/ (exists stext,
        io_open_read (topdir ++ SENTINEL)%string (world s) = Ok stext
        /\ Py.startswith MARKER stext = false
        /\ io_open_read (topdir ++ MANIFEST)%string (world s) = Raise e) ->
  exists s',
    fix_all_git_symlinked topdir s = (s', Raise e)
    /\ world s' = world s /\ stdout s' = stdout s
    /\ Forall (fun ev => written ev = None)
         (skipn (List.length (trace s)) (trace s')).
Proof.
  assert (Hskip : forall evs,
            skipn (List.length (trace s)) (trace s ++ evs) = evs).
  { intros evs. rewrite skipn_app, skipn_all, Nat.sub_diag. reflexivity. }
  unfold fix_all_git_symlinked. rewrite bind_eq, open_read_eq.
  intros [Hs|(stext & Hs & Hm & Ht)]; rewrite Hs.
  - eexists. split; [reflexivity|]. cbn. rewrite Hskip.
    repeat split. repeat constructor.
  - rewrite Hm, bind_eq, open_read_eq. cbn. rewrite Ht.
    eexists. split; [reflexivity|]. cbn. rewrite <- app_assoc, Hskip.
    repeat split. repeat constructor.
Qed.

(** X3: once the sentinel has been read, the run returns -1 exactly when
    the content of the sentinel starts with the marker. *)
Theorem minus_one_only_for_marker (topdir : string) (s : state)
  (stext : string) :
  io_open_read (topdir ++ SENTINEL)%string (world s) = Ok stext ->
  (snd (fix_all_git_symlinked topdir s) = Ok (-1)%Z
   <-> Py.startswith MARKER stext = true).
Proof.
  intros Hs. split.
  - destruct (fix_all_git_symlinked topdir s) as [s' r] eqn:E. cbn.
    intros ->. apply run_inversion in E. cbn zeta in E.
    destruct E as [(e0 & Hs' & _)|[(stext' & Hs' & Hm & _)|
      (stext' & Hs' & Hm & [(e0 & _ & _ & Hr)|(text & _ &
         [(_ & _ & Hr)|(_ & Hloop)])])]]; try congruence.
    apply fix_each_count in Hloop. lia.
  - intros Hm. unfold fix_all_git_symlinked.
    now rewrite bind_eq, open_read_eq, Hs, Hm.
Qed.

(** X4: a run that returns has printed the three lines of one report for
    each failure it counts, and nothing else: with -1 nothing, with a count
    as many reports as the count says. *)
Theorem failures_are_the_reports_printed
  (topdir : string) (s s' : state) (r : Z) :
  fix_all_git_symlinked topdir s = (s', Ok r) ->
  exists reports,
    stdout s' = stdout s ++ reports_lines reports
    /\ ((r = (-1)%Z /\ reports = [])
        \/ r = Z.of_nat (List.length reports)).
Proof.
  intros H. apply run_inversion in H. cbn zeta in H.
  destruct H as [(e0 & _ & _ & Hr)|[(stext & _ & _ & -> & Hr)|
    (stext & _ & _ & [(e0 & _ & _ & Hr)|(text & _ &
       [(_ & _ & Hr)|(_ & Hloop)])])]]; try discriminate.
  - inv Hr. exists []. cbn. rewrite app_nil_r. auto.
  - apply fix_each_summary in Hloop.
    destruct Hloop as (evs & reports & _ & O & _ & Hn).
    exists reports. split; [exact O|]. right.
    rewrite (Hn r eq_refl). lia.
Qed.

(** X5: a run removes a file or copies onto a path only at the
    destination of a name of the manifest, the root joined with that
    name. *)
Theorem writes_only_at_manifest_destinations
  (topdir : string) (s s' : state) (r : result Z) :
  fix_all_git_symlinked topdir s = (s', r) ->
  exists evs,
    trace s' = trace s ++ evs
    /\ Forall (fun ev => forall d, written ev = Some d ->
                 exists text name,
                   io_open_read (topdir ++ MANIFEST)%string (world s)
                   = Ok text
                   /\ In name (relnames_of text)
                   /\ d = os_path_join topdir name) evs.
Proof.
  intros H. apply run_inversion in H. cbn zeta in H.
  assert (Hq : forall evs,
    Forall (fun ev => written ev = None) evs ->
    Forall (fun ev => forall d, written ev = Some d ->
              exists text name,
                io_open_read (topdir ++ MANIFEST)%string (world s) = Ok text
                /\ In name (relnames_of text)
                /\ d = os_path_join topdir name) evs).
  { intros evs Hev. eapply Forall_impl; [|exact Hev]. cbn.
    intros ev -> d Hd. discriminate. }
  destruct H as [(e0 & _ & -> & _)|[(stext & _ & _ & -> & _)|
    (stext & _ & _ & [(e0 & _ & -> & _)|(text & Ht &
       [(_ & -> & _)|(_ & Hloop)])])]];
    try (eexists; split; [reflexivity|]; apply Hq; repeat constructor; fail).
  apply fix_each_summary in Hloop.
  destruct Hloop as (evs & reports & T & _ & W & _).
  unfold logged in T. cbn in T. rewrite <- app_assoc in T.
  eexists. split; [exact T|]. cbn.
  repeat (apply Forall_cons; [intros d Hd; discriminate Hd|]).
  eapply Forall_impl; [|exact W]. cbn.
  intros ev Hev d Hd. destruct (Hev d Hd) as (name & Hin & ->).
  exists text, name. auto.
Qed.

(** X6: an entry is passed over with the count, the file system and the
    console as they were when its destination is refused by the containment
    test, or is a directory already, or when the placeholder has been read
    and the source it names does not exist, is refused by the containment
    test, or makes that test raise. *)
Theorem skipped_entry_untouched
  (topdir name : string) (failures : Z) (s : state) :
  let dst := os_path_join topdir name in
  is_file_into_dir dst topdir = Ok false
  \/ (inside topdir dst /\ os_path_isdir dst (world s) = true)
  \/ (inside topdir dst /\ os_path_isdir dst (world s) = false
      /\ exists text,
           io_open_read (os_path_join topdir dst) (world s) = Ok text
           /\ let src :=
                os_path_normpath (os_path_join (os_path_dirname dst) text) in
              os_path_exists src (world s) = false
              \/ is_file_into_dir src topdir <> Ok true) ->
  exists s',
    fix_one topdir name failures s = (s', Ok failures)
    /\ world s' = world s /\ stdout s' = stdout s
    /\ Forall (fun ev => written ev = None)
         (skipn (List.length (trace s)) (trace s')).
Proof.
  cbn zeta.
  assert (Hskip : forall evs,
            skipn (List.length (trace s)) (trace s ++ evs) = evs).
  { intros evs. rewrite skipn_app, skipn_all, Nat.sub_diag. reflexivity. }
  assert (Hdone : forall evs,
    Forall (fun ev => written ev = None) evs ->
    exists s', (logged s evs, Ok failures) = (s', Ok failures)
      /\ world s' = world s /\ stdout s' = stdout s
      /\ Forall (fun ev => written ev = None)
           (skipn (List.length (trace s)) (trace s'))).
  { intros evs Hev. eexists. split; [reflexivity|]. cbn.
    now rewrite Hskip. }
  rewrite fix_one_eq. cbn zeta.
  intros [Hout|[[Hin Hd]|(Hin & Hd & text & Ht & Hsrc)]].
  - rewrite Hout. exists s. repeat split. rewrite skipn_all. constructor.
  - rewrite Hin, Hd. apply Hdone. repeat constructor.
  - rewrite Hin, Hd, Ht.
    destruct (os_path_exists _ _) eqn:Hex.
    + destruct Hsrc as [Hsrc|Hsrc]; [discriminate|].
      destruct (is_file_into_dir (os_path_normpath _) topdir) as [[|]|e];
        [congruence| |]; apply Hdone; repeat constructor.
    + apply Hdone. repeat constructor.
Qed.

End Runs_in_general.

(** ** The entry of a directory in a run *)

Section Directory_entries.
Context {P : Platform} {O : Observer P}.
Import Winutils Spec.
Local Open Scope list_scope.

(** C8, as the code has it.  A run over a manifest comes, the entries
    before having been dealt with, to an entry whose destination the
    containment test accepts and whose placeholder names, from the directory
    of the destination, an existing directory that the containment test
    accepts; neither the removal of the placeholder nor the copy fails.
    Then the run goes on with the entries that follow from a file system in
    which the destination is no file but a directory, with the tree the
    source had when the copy started, and with nothing printed for the
    entry; where no entry follows, the run ends there. *)
Theorem placeholder_becomes_directory
  (topdir : string) (s : state) (stext text : string)
  (pre post : list string) (name ptext src : string) (f1 : Z) (s1 : state)
  (w1 w2 : World) :
  Laws O ->
  root_ok topdir ->
  io_open_read (topdir ++ SENTINEL)%string (world s) = Ok stext ->
  Py.startswith MARKER stext = false ->
  io_open_read (topdir ++ MANIFEST)%string (world s) = Ok text ->
  Py.startswith "." text = false ->
  relnames_of text = pre ++ name :: post ->
  fix_each topdir pre 0%Z
    (logged s [EvOpen (topdir ++ SENTINEL)%string;
               EvOpen (topdir ++ MANIFEST)%string]) = (s1, Ok f1) ->
  valid_entry topdir name ptext src (world s1) ->
  os_path_isdir src (world s1) = true ->
  os_unlink (os_path_join topdir name) (world s1) = (w1, Ok tt) ->
  shutil_copytree src (os_path_join topdir name) w1 = (w2, Ok tt) ->
  exists s2,
    fix_all_git_symlinked topdir s = fix_each topdir post f1 s2
    /\ world s2 = w2
    /\ stdout s2 = stdout s1
    /\ os_path_isfile (os_path_join topdir name) w2 = false
    /\ os_path_isdir (os_path_join topdir name) w2 = true
    /\ tree_at (os_path_join topdir name) w2 = tree_at src w1
    /\ tree_at (os_path_join topdir name) w2 <> None
    /\ (post = [] -> fix_all_git_symlinked topdir s = (s2, Ok f1)).
Proof.
  intros L Hroot Hs Hm Ht Hdot Hnames Hpre V Hdir Hun Hcopy.
  rewrite (run_reaches_loop _ _ _ _ Hs Hm Ht Hdot), Hnames.
  rewrite fix_each_app, bind_eq, Hpre.
  cbn [fix_each]. rewrite bind_eq.
  destruct (fix_one_directory topdir name ptext src f1 s1 w1 w2
              Hroot V Hdir Hun Hcopy) as (s2 & -> & Hw & Hout).
  exists s2. split; [reflexivity|].
  destruct (copytree_tree O L _ _ _ _ Hcopy) as [Hd Htree].
  repeat split; auto.
  - exact (isdir_not_isfile O L _ _ Hd).
  - exact (isdir_has_tree O L _ _ Hd).
  - now intros ->.
Qed.

End Directory_entries.

(** ** Further properties of the names of the manifest *)

Section Manifest_in_general.
Import Winutils Spec.
Local Open Scope list_scope.

(** The pieces of two texts with a line feed between are the pieces of the
    first, then the pieces of the second. *)
Lemma split_append a b :
  Py.split Py.LF (a ++ String Py.LF b)%string
  = Py.split Py.LF a ++ Py.split Py.LF b.
Proof.
  induction a as [|c a' IH]; [reflexivity|].
  cbn -[Ascii.eqb]. destruct (Ascii.eqb c Py.LF).
  - now rewrite IH.
  - rewrite IH. destruct (Py.split Py.LF a') as [|w ws] eqn:E; [|reflexivity].
    now apply split_not_nil in E.
Qed.

Lemma relnames_of_append a b :
  relnames_of (a ++ String Py.LF b)%string = relnames_of a ++ relnames_of b.
Proof.
  unfold relnames_of. now rewrite split_append, map_app, filter_app.
Qed.

(** X7: a manifest can be cut at any of its line feeds: its names are the
    names of the text before, then the names of the text after, and the
    loop over them is the loop over the first, then the loop over the second
    from the count and the state the first has left. *)
Theorem manifest_splits_at_newline {P : Platform} (a b : string) :
  relnames_of (a ++ String Py.LF b)%string = relnames_of a ++ relnames_of b
  /\ forall topdir failures s,
       fix_each topdir (relnames_of (a ++ String Py.LF b)%string) failures s
       = bind (fix_each topdir (relnames_of a) failures)
              (fix_each topdir (relnames_of b)) s.
Proof.
  split; [apply relnames_of_append|].
  intros topdir failures s. rewrite relnames_of_append. apply fix_each_app.
Qed.

Lemma lstrip_all_space s : Spec.all_space s = true -> Py.lstrip s = EmptyString.
Proof.
  induction s as [|c s' IH]; [reflexivity|].
  cbn -[Py.isspace]. destruct (Py.isspace c); [exact IH|discriminate].
Qed.

Lemma lstrip_empty s : Py.lstrip s = EmptyString -> Spec.all_space s = true.
Proof.
  induction s as [|c s' IH]; [reflexivity|].
  cbn -[Py.isspace]. destruct (Py.isspace c); [exact IH|discriminate].
Qed.

Lemma rstrip_empty s :
  tight_left s -> Py.rstrip s = EmptyString -> s = EmptyString.
Proof.
  destruct s as [|c s']; [reflexivity|].
  cbn -[Py.isspace]. intros ->. destruct (Py.rstrip s'); discriminate.
Qed.

(** Trimming leaves nothing exactly of the texts of white space only. *)
Lemma strip_empty_iff s :
  Py.strip s = EmptyString <-> Spec.all_space s = true.
Proof.
  unfold Py.strip. split.
  - intros H. apply lstrip_empty.
    exact (rstrip_empty _ (lstrip_tight s) H).
  - intros H. now rewrite (lstrip_all_space _ H).
Qed.

Lemma all_space_split s :
  Spec.all_space s = true
  <-> Forall (fun line => Spec.all_space line = true) (Py.split Py.LF s).
Proof.
  induction s as [|c s' IH]; cbn -[Py.isspace Ascii.eqb].
  - split; [repeat constructor|reflexivity].
  - destruct (Ascii.eqb_spec c Py.LF) as [->|Hc].
    + change (Py.isspace Py.LF) with true. cbn [andb]. rewrite IH.
      split; [now constructor|intros H; now inv H].
    + destruct (Py.split Py.LF s') as [|w ws] eqn:E.
      { now apply split_not_nil in E. }
      rewrite andb_true_iff, IH. split.
      * intros [Hsp H]. inv H. constructor; [|assumption].
        cbn -[Py.isspace]. now rewrite Hsp.
      * intros H. inv H. cbn -[Py.isspace] in H2.
        apply andb_true_iff in H2. destruct H2. split; [assumption|].
        now constructor.
Qed.

Lemma truthy_normalize s :
  Py.truthy (Py.replace "/" "\" s) = Py.truthy s.
Proof. now destruct s. Qed.

Lemma relnames_of_nil_iff (text : string) :
  relnames_of text = [] <-> Spec.all_space text = true.
Proof.
  rewrite all_space_split. unfold relnames_of.
  induction (Py.split Py.LF text) as [|line rest IH]; cbn [map filter].
  - split; [constructor|reflexivity].
  - rewrite truthy_normalize.
    destruct (Py.strip line) as [|c r] eqn:E; cbn [Py.truthy].
    + rewrite IH. apply strip_empty_iff in E.
      split; [now constructor|intros H; now inv H].
    + split; [discriminate|]. intros H. inv H.
      apply strip_empty_iff in H2. congruence.
Qed.

(** X8: the manifest gives no name exactly when it is white space from end
    to end, the empty text included. *)
Theorem no_names_iff_blank (text : string) :
  relnames_of text = [] <-> Spec.all_space text = true.
Proof.
  split; intros H.
  - now apply relnames_of_nil_iff.
  - now apply relnames_of_nil_iff.
Qed.

Lemma all_space_no_dot text :
  Spec.all_space text = true -> Py.startswith "." text = false.
Proof.
  destruct text as [|c rest]; [reflexivity|].
  cbn -[Py.isspace Ascii.eqb]. unfold Py.startswith.
  destruct (Ascii.eqb_spec "."%char c) as [<-|]; [discriminate|reflexivity].
Qed.

(** X9: over a manifest of white space only, the file without the marker
    in the sentinel, a run reads the two files, makes no other call and
    returns 0. *)
Theorem blank_manifest_does_nothing {P : Platform}
  (topdir : string) (s : state) (stext text : string) :
  io_open_read (topdir ++ SENTINEL)%string (world s) = Ok stext ->
  Py.startswith MARKER stext = false ->
  io_open_read (topdir ++ MANIFEST)%string (world s) = Ok text ->
  Spec.all_space text = true ->
  fix_all_git_symlinked topdir s =
    (logged s [EvOpen (topdir ++ SENTINEL)%string;
               EvOpen (topdir ++ MANIFEST)%string], Ok 0%Z).
Proof.
  intros Hs Hm Ht Hblank.
  rewrite (run_reaches_loop _ _ _ _ Hs Hm Ht (all_space_no_dot _ Hblank)).
  apply relnames_of_nil_iff in Hblank. now rewrite Hblank.
Qed.

Lemma split_one_line name :
  Spec.contains Py.LF name = false -> Py.split Py.LF name = [name].
Proof.
  induction name as [|c name' IH]; [reflexivity|].
  cbn -[Ascii.eqb]. destruct (Ascii.eqb c Py.LF); [discriminate|].
  cbn [orb]. intros H. now rewrite (IH H).
Qed.

Lemma relnames_of_line name :
  Spec.line_name name -> relnames_of name = [Py.replace "/" "\" name].
Proof.
  intros (Ht & Hs & Hl). unfold relnames_of.
  rewrite (split_one_line _ Hl). cbn [map filter].
  now rewrite Hs, truthy_normalize, Ht.
Qed.

Lemma relnames_of_join_lines (names : list string) :
  Forall Spec.line_name names ->
  relnames_of (Spec.join_lines names) = map (Py.replace "/" "\") names.
Proof.
  induction names as [|name rest IH]; intros H.
  - reflexivity.
  - inv H. destruct rest as [|name' rest'].
    + cbn [Spec.join_lines map]. now apply relnames_of_line.
    + change (Spec.join_lines (name :: name' :: rest'))
        with (name ++ String Py.LF (Spec.join_lines (name' :: rest')))%string.
      rewrite relnames_of_append, (relnames_of_line _ H2), (IH H3).
      reflexivity.
Qed.

(** X10: a manifest written one name a line, the names not empty, without
    white space around them and without a line feed in them, is read back as
    those names in that order, their forward slashes turned into
    backslashes. *)
Theorem names_written_are_names_read (names : list string) :
  Forall Spec.line_name names ->
  relnames_of (Spec.join_lines names) = map (Py.replace "/" "\") names.
Proof. intros H. now rewrite relnames_of_join_lines. Qed.

Lemma contains_lstrip c s :
  Spec.contains c s = false -> Spec.contains c (Py.lstrip s) = false.
Proof.
  induction s as [|d s' IH]; [reflexivity|].
  cbn -[Py.isspace Ascii.eqb]. intros H.
  apply orb_false_iff in H. destruct H as [Hd Hs].
  destruct (Py.isspace d); [auto|].
  cbn -[Ascii.eqb]. now rewrite Hd, Hs.
Qed.

Lemma contains_rstrip c s :
  Spec.contains c s = false -> Spec.contains c (Py.rstrip s) = false.
Proof.
  induction s as [|d s' IH]; [reflexivity|].
  cbn -[Py.isspace Ascii.eqb]. intros H.
  apply orb_false_iff in H. destruct H as [Hd Hs]. specialize (IH Hs).
  destruct (Py.rstrip s') as [|a r].
  - destruct (Py.isspace d); [reflexivity|].
    cbn -[Ascii.eqb]. now rewrite Hd.
  - cbn -[Ascii.eqb] in *. now rewrite Hd, IH.
Qed.

Lemma contains_normalize c s :
  c <> "/"%char -> c <> "\"%char ->
  Spec.contains c (Py.replace "/" "\" s) = Spec.contains c s.
Proof.
  intros H1 H2. induction s as [|d s' IH]; [reflexivity|].
  cbn -[Ascii.eqb]. rewrite IH. f_equal.
  destruct (Ascii.eqb_spec d "/"%char) as [->|]; [|reflexivity].
  apply Ascii.eqb_neq in H1, H2. rewrite (Ascii.eqb_sym _ c), H2.
  now rewrite (Ascii.eqb_sym _ c), H1.
Qed.

Lemma split_lines_no_LF s :
  Forall (fun line => Spec.contains Py.LF line = false) (Py.split Py.LF s).
Proof.
  induction s as [|c s' IH]; cbn -[Ascii.eqb].
  - repeat constructor.
  - destruct (Ascii.eqb c Py.LF) eqn:E.
    + constructor; [reflexivity|exact IH].
    + destruct (Py.split Py.LF s') as [|w ws].
      * repeat constructor. cbn -[Ascii.eqb]. now rewrite E.
      * inv IH. constructor; [|assumption].
        cbn -[Ascii.eqb]. now rewrite E, H1.
Qed.

Lemma normalize_fixed s :
  Spec.contains "/" s = false -> Py.replace "/" "\" s = s.
Proof.
  induction s as [|d s' IH]; [reflexivity|].
  cbn -[Ascii.eqb]. intros H. apply orb_false_iff in H.
  destruct H as [Hd Hs]. now rewrite Hd, (IH Hs).
Qed.

(** Each name the loop runs over could stand as a line of a manifest. *)
Lemma relnames_are_line_names text :
  Forall (fun name => Spec.line_name name
                      /\ Spec.contains "/" name = false) (relnames_of text).
Proof.
  unfold relnames_of. apply Forall_forall. intros name Hin.
  apply filter_In in Hin. destruct Hin as [Hin Htruthy].
  apply in_map_iff in Hin. destruct Hin as (line & <- & Hline).
  pose proof (split_lines_no_LF text) as Hno.
  rewrite Forall_forall in Hno. specialize (Hno _ Hline).
  repeat split.
  - exact Htruthy.
  - change (Py.replace "/" "\" (Py.strip line))
      with (Py.replace ntpath.altsep ntpath.sep (Py.strip line)).
    now rewrite strip_normalize, strip_idempotent.
  - rewrite contains_normalize by discriminate.
    unfold Py.strip. now apply contains_rstrip, contains_lstrip.
  - exact (normalize_no_altsep (Py.strip line)).
Qed.

(** X14: reading is idempotent: the names of a manifest, written one a
    line and read again, are the same names in the same order. *)
Theorem reading_names_is_idempotent (text : string) :
  relnames_of (Spec.join_lines (relnames_of text)) = relnames_of text.
Proof.
  pose proof (relnames_are_line_names text) as H.
  rewrite relnames_of_join_lines.
  - induction (relnames_of text) as [|name rest IH]; [reflexivity|].
    inv H. cbn [map]. rewrite (normalize_fixed name) by tauto.
    now rewrite IH.
  - eapply Forall_impl; [|exact H]. cbn. tauto.
Qed.

(** A carriage return at the end of a line is trimmed away. *)
Lemma rstrip_snoc_space s c :
  Py.isspace c = true ->
  Py.rstrip (s ++ String c EmptyString)%string = Py.rstrip s.
Proof.
  intros Hc. induction s as [|d s' IH]; cbn -[Py.isspace].
  - now rewrite Hc.
  - now rewrite IH.
Qed.

Lemma lstrip_snoc_space s c :
  Py.isspace c = true ->
  Py.lstrip (s ++ String c EmptyString)%string =
  if Spec.all_space s then EmptyString
  else (Py.lstrip s ++ String c EmptyString)%string.
Proof.
  intros Hc. induction s as [|d s' IH]; cbn -[Py.isspace].
  - now rewrite Hc.
  - destruct (Py.isspace d); [exact IH|reflexivity].
Qed.

Lemma strip_snoc_space s c :
  Py.isspace c = true ->
  Py.strip (s ++ String c EmptyString)%string = Py.strip s.
Proof.
  intros Hc. unfold Py.strip. rewrite (lstrip_snoc_space _ _ Hc).
  destruct (Spec.all_space s) eqn:E.
  - now rewrite (lstrip_all_space _ E).
  - apply rstrip_snoc_space, Hc.
Qed.

(** The lines of a text with carriage returns before its line feeds: the
    lines of the text, each but the last with a carriage return at its
    end. *)
Lemma split_crlf text :
  map Py.strip (Py.split Py.LF (Spec.crlf text))
  = map Py.strip (Py.split Py.LF text)
  /\ exists w ws w' ws',
       Py.split Py.LF (Spec.crlf text) = w :: ws
       /\ Py.split Py.LF text = w' :: ws'
       /\ (w = w' \/ w = (w' ++ String "013"%char EmptyString)%string).
Proof.
  induction text as [|c text' IH]; cbn -[Ascii.eqb Py.strip].
  - split; [reflexivity|]. exists EmptyString, [], EmptyString, []. auto.
  - destruct IH as (IHmap & w & ws & w' & ws' & E & E' & Hw).
    destruct (Ascii.eqb_spec c Py.LF) as [->|Hc].
    + cbn -[Py.strip]. rewrite IHmap. split; [reflexivity|].
      exists (String "013"%char EmptyString), (Py.split Py.LF (Spec.crlf text')),
        EmptyString, (Py.split Py.LF text'). auto.
    + cbn -[Ascii.eqb Py.strip].
      destruct (Ascii.eqb c Py.LF) eqn:Ec;
        [apply Ascii.eqb_eq in Ec; contradiction|].
      rewrite E, E' in *. cbn [map] in IHmap. inv IHmap.
      split.
      * cbn [map]. f_equal; [|assumption].
        destruct Hw as [->| ->]; [reflexivity|].
        change (String c (w' ++ String "013"%char EmptyString))%string
          with (String c w' ++ String "013"%char EmptyString)%string.
        now apply strip_snoc_space.
      * exists (String c w), ws, (String c w'), ws'. repeat split.
        destruct Hw as [->| ->]; auto.
Qed.

(** X11: a manifest with the line ends of Windows, a carriage return before
    each line feed, gives the names of the manifest without them. *)
Theorem line_ends_of_windows_are_tolerated (text : string) :
  relnames_of (Spec.crlf text) = relnames_of text.
Proof.
  unfold relnames_of.
  rewrite <- (map_map Py.strip (Py.replace "/" "\")).
  rewrite (proj1 (split_crlf text)).
  now rewrite map_map.
Qed.

End Manifest_in_general.

(** ** Running an iteration again *)

Section Again.
Context {P : Platform}.
Import Winutils Spec.
Local Open Scope list_scope.

(** Once the destination of an entry, accepted by the containment test, is
    a directory, the iteration for it asks that one question and goes on. *)
Lemma fix_one_on_directory topdir name failures s :
  inside topdir (os_path_join topdir name) ->
  os_path_isdir (os_path_join topdir name) (world s) = true ->
  fix_one topdir name failures s =
  (logged s [EvIsdir (os_path_join topdir name)], Ok failures).
Proof.
  intros Hin Hd. rewrite fix_one_eq. cbn zeta. now rewrite Hin, Hd.
Qed.

(** X12: the iteration that has turned a placeholder into a directory,
    run again on what it has left, asks whether the destination is a
    directory and does nothing more: no call that writes, no failure
    counted, nothing printed. *)
Theorem directory_repair_is_idempotent {O : Observer P}
  (topdir name ptext src : string) (failures : Z) (s : state)
  (w1 w2 : World) :
  Laws O ->
  root_ok topdir ->
  valid_entry topdir name ptext src (world s) ->
  os_path_isdir src (world s) = true ->
  os_unlink (os_path_join topdir name) (world s) = (w1, Ok tt) ->
  shutil_copytree src (os_path_join topdir name) w1 = (w2, Ok tt) ->
  exists s1,
    fix_one topdir name failures s = (s1, Ok failures)
    /\ forall again,
         fix_one topdir name again s1 =
         (logged s1 [EvIsdir (os_path_join topdir name)], Ok again).
Proof.
  intros L Hroot V Hdir Hun Hcopy.
  destruct (fix_one_directory topdir name ptext src failures s w1 w2
              Hroot V Hdir Hun Hcopy) as (s1 & E & Hw & _).
  exists s1. split; [exact E|]. intros again.
  apply fix_one_on_directory.
  - exact (dst_inside _ _ _ _ _ V).
  - rewrite Hw. exact (proj1 (copytree_tree O L _ _ _ _ Hcopy)).
Qed.


(** X16: a placeholder that cannot be read ends the run where it stands:
    the run raises what the read raised, the file system is as the entries
    before have left it, their repairs kept and their failures reported on
    the console; the entries after are not come to, and no count is
    returned. *)
Theorem unreadable_placeholder_keeps_earlier_work
  (topdir : string) (s : state) (stext text : string)
  (pre post : list string) (name : string) (f1 : Z) (s1 : state) (e : exn) :
  io_open_read (topdir ++ SENTINEL)%string (world s) = Ok stext ->
  Py.startswith MARKER stext = false ->
  io_open_read (topdir ++ MANIFEST)%string (world s) = Ok text ->
  Py.startswith "." text = false ->
  relnames_of text = pre ++ name :: post ->
  fix_each topdir pre 0%Z
    (logged s [EvOpen (topdir ++ SENTINEL)%string;
               EvOpen (topdir ++ MANIFEST)%string]) = (s1, Ok f1) ->
  inside topdir (os_path_join topdir name) ->
  os_path_isdir (os_path_join topdir name) (world s1) = false ->
  io_open_read (os_path_join topdir (os_path_join topdir name)) (world s1)
  = Raise e ->
  fix_all_git_symlinked topdir s =
  (logged s1 [EvIsdir (os_path_join topdir name);
              EvOpen (os_path_join topdir (os_path_join topdir name))],
   Raise e).
Proof.
  intros Hs Hm Ht Hdot Hnames Hpre Hin Hnd Hread.
  rewrite (run_reaches_loop _ _ _ _ Hs Hm Ht Hdot), Hnames.
  rewrite fix_each_app, bind_eq, Hpre.
  cbn [fix_each]. rewrite bind_eq, fix_one_eq. cbn zeta.
  now rewrite Hin, Hnd, Hread.
Qed.

(** X15: the calls of an iteration come in one order, and the iteration
    stops somewhere along it: is the destination a directory, the read of
    the placeholder, does the source exist, is the source a directory, then
    the removal of the placeholder and the copy of the tree, or the copy of
    the file.  The source is the content read, taken from the directory of
    the destination; no call that writes is made before the source has been
    found to exist and to pass the containment test. *)
Theorem calls_of_an_iteration_in_order
  (topdir name : string) (failures : Z) (s s' : state) (r : result Z) :
  fix_one topdir name failures s = (s', r) ->
  let dst := os_path_join topdir name in
  let path := os_path_join topdir dst in
  exists text n,
    let src := os_path_normpath (os_path_join (os_path_dirname dst) text) in
    trace s' = trace s
               ++ firstn n (calls_of_entry dst path src
                              (os_path_isdir src (world s)))
    /\ (2 < n -> io_open_read path (world s) = Ok text)
    /\ (4 <= n -> os_path_exists src (world s) = true /\ inside topdir src).
Proof.
  cbn zeta. rewrite fix_one_eq. cbn zeta.
  set (dst := os_path_join topdir name).
  destruct (is_file_into_dir dst topdir) as [[|]|e].
  2,3: intros H; inv H; exists EmptyString, 0; cbn;
       rewrite app_nil_r; repeat split; lia.
  destruct (os_path_isdir dst (world s)).
  { intros H; inv H. exists EmptyString, 1. cbn. repeat split; lia. }
  destruct (io_open_read _ _) as [text|e] eqn:Hread.
  2:{ intros H; inv H. exists EmptyString, 2. cbn. repeat split; lia. }
  set (src := os_path_normpath _).
  destruct (os_path_exists src (world s)) eqn:Hex.
  2:{ intros H; inv H. exists text, 3. cbn. repeat split; auto; lia. }
  destruct (is_file_into_dir src topdir) as [[|]|e] eqn:Hin.
  2,3: intros H; inv H; exists text, 3; cbn; repeat split; auto; lia.
  rewrite copy_src_eq. cbn [world trace stdout logged].
  assert (Hfin : forall (st : state) res n evs,
    firstn n (calls_of_entry dst (os_path_join topdir dst) src
                (os_path_isdir src (world s)))
    = [EvIsdir dst; EvOpen (os_path_join topdir dst); EvExists src] ++ evs ->
    trace st = (trace s ++ [EvIsdir dst; EvOpen (os_path_join topdir dst);
                            EvExists src]) ++ evs ->
    (st, res) = (s', r) ->
    exists text0 n0,
      trace s' = trace s
        ++ firstn n0
             (calls_of_entry dst (os_path_join topdir dst)
                (os_path_normpath
                   (os_path_join (os_path_dirname dst) text0))
                (os_path_isdir
                   (os_path_normpath
                      (os_path_join (os_path_dirname dst) text0)) (world s)))
      /\ (2 < n0 -> Ok text = Ok text0)
      /\ (4 <= n0 ->
          os_path_exists
            (os_path_normpath (os_path_join (os_path_dirname dst) text0))
            (world s) = true
          /\ inside topdir
               (os_path_normpath
                  (os_path_join (os_path_dirname dst) text0)))).
  { intros st res n evs Hn Ht H. inv H. exists text, n. fold src.
    rewrite Hn, Ht, <- app_assoc. repeat split; auto. }
  unfold calls_of_entry in Hfin.
  destruct (os_path_isdir src (world s)).
  - destruct (os_unlink dst (world s)) as [w1 [[]|e1]].
    + destruct (shutil_copytree src dst w1) as [w2 [[]|e2]];
        apply (Hfin _ _ 6 [EvIsdir src; EvUnlink dst; EvCopytree src dst]);
        reflexivity.
    + apply (Hfin _ _ 5 [EvIsdir src; EvUnlink dst]); reflexivity.
  - destruct (shutil_copy2 src dst (world s)) as [w1 [[]|e1]];
      apply (Hfin _ _ 5 [EvIsdir src; EvCopy2 src dst]); reflexivity.
Qed.

End Again.

(** ** Further runs on Windows over the file system in memory *)

Section More_runs.
Import Winutils Spec Examples.
Local Open Scope list_scope.


Lemma unreadable_sentinel_or_manifest_is_fatal_witness :
  exists s',
    fix_all_git_symlinked (P := NT.platform) ROOT (start no_manifest)
    = (s', Raise OSError)
    /\ world s' = no_manifest /\ stdout s' = []
    /\ Forall (fun ev => written ev = None) (skipn 0 (trace s')).
Proof.
  apply (unreadable_sentinel_or_manifest_is_fatal (P := NT.platform)
           ROOT (start no_manifest) OSError).
  right. exists BROKEN. repeat split; vm_compute; reflexivity.
Defined.

Lemma minus_one_only_for_marker_witness :
  snd (fix_all_git_symlinked (P := NT.platform) ROOT (start links_ok))
  = Ok (-1)%Z
  <-> Py.startswith MARKER (lines2 "NIKOLA_SYMLINKS=OK" "") = true.
Proof.
  apply (minus_one_only_for_marker (P := NT.platform) ROOT (start links_ok)).
  vm_compute. reflexivity.
Defined.

Lemma failures_are_the_reports_printed_witness :
  exists reports,
    stdout (fst (fix_all_git_symlinked (P := NT.platform) ROOT
                   (start failing_copy)))
    = [] ++ reports_lines reports
    /\ ((1%Z = (-1)%Z /\ reports = [])
        \/ 1%Z = Z.of_nat (List.length reports)).
Proof.
  apply (failures_are_the_reports_printed (P := NT.platform) ROOT
           (start failing_copy)
           (fst (fix_all_git_symlinked ROOT (start failing_copy))) 1%Z).
  apply (pair_of_snd (fix_all_git_symlinked ROOT (start failing_copy))).
  vm_compute. reflexivity.
Defined.

Lemma writes_only_at_manifest_destinations_witness :
  exists evs,
    trace (fst (fix_all_git_symlinked (P := NT.platform) ROOT
                  (start one_file)))
    = [] ++ evs
    /\ Forall (fun ev => forall d, written ev = Some d ->
                 exists text name,
                   NT.open_read (ROOT ++ MANIFEST)%string one_file = Ok text
                   /\ In name (relnames_of text)
                   /\ d = ntpath.join ROOT name) evs.
Proof.
  apply (writes_only_at_manifest_destinations (P := NT.platform) ROOT
           (start one_file)
           (fst (fix_all_git_symlinked ROOT (start one_file)))
           (snd (fix_all_git_symlinked ROOT (start one_file)))).
  apply surjective_pairing.
Defined.

Lemma skipped_entry_untouched_witness :
  exists s',
    fix_one (P := NT.platform) ROOT "docs\a.txt" 0%Z
      (start one_file_under_docs) = (s', Ok 0%Z)
    /\ world s' = one_file_under_docs /\ stdout s' = []
    /\ Forall (fun ev => written ev = None) (skipn 0 (trace s')).
Proof.
  apply (skipped_entry_untouched (P := NT.platform) ROOT "docs\a.txt" 0%Z
           (start one_file_under_docs)).
  right; right. split; [vm_compute; reflexivity|].
  split; [vm_compute; reflexivity|].
  exists "../real/a.txt". split; [vm_compute; reflexivity|].
  left. vm_compute. reflexivity.
Defined.

Lemma blank_manifest_does_nothing_witness :
  fix_all_git_symlinked (P := NT.platform) ROOT (start blank_manifest) =
  (logged (start blank_manifest)
     [EvOpen (ROOT ++ SENTINEL)%string; EvOpen (ROOT ++ MANIFEST)%string],
   Ok 0%Z).
Proof.
  apply (blank_manifest_does_nothing (P := NT.platform) ROOT
           (start blank_manifest) BROKEN (lines2 "  " (String Py.TAB " ")));
    vm_compute; reflexivity.
Defined.

Lemma names_written_are_names_read_witness :
  relnames_of (join_lines ["docs/a.txt"; "nikola/data/themes/base"])
  = map (Py.replace "/" "\") ["docs/a.txt"; "nikola/data/themes/base"].
Proof.
  apply names_written_are_names_read.
  repeat (apply Forall_cons; [repeat split; vm_compute; reflexivity|]).
  apply Forall_nil.
Defined.

Lemma valid_docs_link :
  valid_entry (P := NT.platform) ROOT "docs\link" "../real" "C:\repo\real"
    one_directory.
Proof. constructor; vm_compute; reflexivity. Qed.

Lemma directory_repair_is_idempotent_witness :
  exists s1,
    fix_one (P := NT.platform) ROOT "docs\link" 0%Z (start one_directory)
    = (s1, Ok 0%Z)
    /\ forall again,
         fix_one (P := NT.platform) ROOT "docs\link" again s1 =
         (logged s1 [EvIsdir (ntpath.join ROOT "docs\link")], Ok again).
Proof.
  apply (directory_repair_is_idempotent (P := NT.platform) (O := NT_observer)
           ROOT "docs\link" "../real" "C:\repo\real" 0%Z (start one_directory)
           (fst (NT.unlink "C:\repo\docs\link" one_directory))
           (fst (NT.copytree "C:\repo\real" "C:\repo\docs\link"
                   (fst (NT.unlink "C:\repo\docs\link" one_directory))))).
  - exact NT_keeps_the_contract.
  - exact root_ok_ROOT.
  - exact valid_docs_link.
  - vm_compute; reflexivity.
  - vm_compute; reflexivity.
  - vm_compute; reflexivity.
Defined.




Lemma only_existence_test_unguarded_witness :
  (forall s s' r,
     fix_all_git_symlinked (P := NT.platform) ROOT s = (s', r) ->
     exists evs,
       trace s' = trace s ++ evs
       /\ Forall (guarded (P := NT.platform) ROOT) evs)
  /\ (forall name failures (s : state (P := NT.platform)),
        is_file_into_dir (P := NT.platform) (ntpath.join ROOT name) ROOT
        = Ok false ->
        fix_one ROOT name failures s = (s, Ok failures))
  /\ (forall name failures (s : state (P := NT.platform)) text,
        let dst := ntpath.join ROOT name in
        inside (P := NT.platform) ROOT dst ->
        NT.isdir dst (world s) = false ->
        NT.open_read dst (world s) = Ok text ->
        is_file_into_dir (P := NT.platform)
          (ntpath.normpath (ntpath.join (ntpath.dirname dst) text)) ROOT
        = Ok false ->
        exists s',
          fix_one ROOT name failures s = (s', Ok failures)
          /\ world s' = world s).
Proof.
  exact (only_existence_test_unguarded (P := NT.platform) ROOT root_ok_ROOT).
Defined.

Lemma unreadable_placeholder_keeps_earlier_work_witness :
  snd (fix_all_git_symlinked (P := NT.platform) ROOT (start missing_second))
  = Raise OSError
  /\ NT.open_read "C:\repo\docs\a.txt"
       (world (fst (fix_all_git_symlinked (P := NT.platform) ROOT
                      (start missing_second))))
     = Ok "hello".
Proof.
  pose proof
    (unreadable_placeholder_keeps_earlier_work (P := NT.platform) ROOT
       (start missing_second) BROKEN (lines2 "docs/a.txt" "missing.txt")
       ["docs\a.txt"] [] "missing.txt" 0%Z
       (fst (fix_each (P := NT.platform) ROOT ["docs\a.txt"] 0%Z
               (logged (start missing_second)
                  [EvOpen (ROOT ++ SENTINEL)%string;
                   EvOpen (ROOT ++ MANIFEST)%string])))
       OSError) as H.
  rewrite H.
  - split; [reflexivity|]. vm_compute. reflexivity.
  - vm_compute; reflexivity.
  - vm_compute; reflexivity.
  - vm_compute; reflexivity.
  - vm_compute; reflexivity.
  - vm_compute; reflexivity.
  - apply (pair_of_snd (fix_each (P := NT.platform) ROOT ["docs\a.txt"] 0%Z
             (logged (start missing_second)
                [EvOpen (ROOT ++ SENTINEL)%string;
                 EvOpen (ROOT ++ MANIFEST)%string]))).
    vm_compute. reflexivity.
  - vm_compute; reflexivity.
  - vm_compute; reflexivity.
  - vm_compute; reflexivity.
Defined.

Lemma calls_of_an_iteration_in_order_witness :
  let dst := ntpath.join ROOT "docs\a.txt" in
  let path := ntpath.join ROOT dst in
  exists text n,
    let src := ntpath.normpath (ntpath.join (ntpath.dirname dst) text) in
    trace (fst (fix_one (P := NT.platform) ROOT "docs\a.txt" 0%Z
                  (start one_file)))
    = [] ++ firstn n (calls_of_entry dst path src (NT.isdir src one_file))
    /\ (2 < n -> NT.open_read path one_file = Ok text)
    /\ (4 <= n ->
        NT.exists_ src one_file = true /\ inside (P := NT.platform) ROOT src).
Proof.
  apply (calls_of_an_iteration_in_order (P := NT.platform) ROOT "docs\a.txt"
           0%Z (start one_file)
           (fst (fix_one ROOT "docs\a.txt" 0%Z (start one_file)))
           (snd (fix_one ROOT "docs\a.txt" 0%Z (start one_file)))).
  apply surjective_pairing.
Defined.

Lemma placeholder_becomes_directory_witness :
  exists s2,
    fix_all_git_symlinked (P := NT.platform) ROOT (start three_entries)
    = fix_each ROOT ["real\b.txt"] 0%Z s2
    /\ stdout s2 = []
    /\ NT.isfile "C:\repo\docs\link" (world s2) = false
    /\ NT.isdir "C:\repo\docs\link" (world s2) = true
    /\ NT.find "C:\repo\docs\link" (world s2)
       = Some (MemFS.Dir [("a.txt", MemFS.File "hello");
                          ("b.txt", MemFS.File "../other.txt")]).
Proof.
  destruct
    (placeholder_becomes_directory (P := NT.platform) (O := NT_observer)
       ROOT (start three_entries) BROKEN
       (lines2 "docs/a.txt" (lines2 "docs/link" "real/b.txt"))
       ["docs\a.txt"] ["real\b.txt"] "docs\link" "../real" "C:\repo\real"
       0%Z
       (fst (fix_each (P := NT.platform) ROOT ["docs\a.txt"] 0%Z
               (logged (start three_entries)
                  [EvOpen (ROOT ++ SENTINEL)%string;
                   EvOpen (ROOT ++ MANIFEST)%string])))
       (fst (NT.unlink "C:\repo\docs\link"
               (fst (NT.copy2 "C:\repo\real\a.txt" "C:\repo\docs\a.txt"
                       three_entries))))
       (fst (NT.copytree "C:\repo\real" "C:\repo\docs\link"
               (fst (NT.unlink "C:\repo\docs\link"
                       (fst (NT.copy2 "C:\repo\real\a.txt"
                               "C:\repo\docs\a.txt" three_entries))))))
       NT_keeps_the_contract root_ok_ROOT)
    as (s2 & Hrun & Hw & Hout & Hfile & Hdir & Htree & _).
  - vm_compute; reflexivity.
  - vm_compute; reflexivity.
  - vm_compute; reflexivity.
  - vm_compute; reflexivity.
  - vm_compute; reflexivity.
  - apply (pair_of_snd (fix_each (P := NT.platform) ROOT ["docs\a.txt"] 0%Z
             (logged (start three_entries)
                [EvOpen (ROOT ++ SENTINEL)%string;
                 EvOpen (ROOT ++ MANIFEST)%string]))).
    vm_compute. reflexivity.
  - constructor; vm_compute; reflexivity.
  - vm_compute; reflexivity.
  - vm_compute; reflexivity.
  - vm_compute; reflexivity.
  - exists s2. split; [exact Hrun|]. rewrite Hout, Hw.
    split; [vm_compute; reflexivity|].
    split; [exact Hfile|]. split; [exact Hdir|].
    etransitivity; [exact Htree|]. vm_compute. reflexivity.
Defined.

(** C8, against the claim, four times over.  In [three_entries] the entry
    [docs/link] names the directory [real]; the entry after it repairs
    [real/b.txt], so that after the run the copy at [docs\link] still holds
    the placeholder while [real] holds the content.  In [dot_directory] the
    placeholder names [.real], an existing directory below the root, and is
    left a file: the containment test refuses a relative path that begins
    with a dot.  On a volume that may not be written the placeholder cannot
    be removed and is left a file, the run returning 1.  And where the copy
    of the directory is cut short, the destination is left a directory with
    nothing in it, the run returning 1. *)
Lemma directory_is_not_always_as_its_source :
  (NT.open_read "C:\repo\docs\link" three_entries = Ok "../real"
   /\ NT.isdir "C:\repo\real" three_entries = true
   /\ snd (NT.run ROOT three_entries) = Ok 0%Z
   /\ NT.find "C:\repo\docs\link" (world (fst (NT.run ROOT three_entries)))
      = Some (MemFS.Dir [("a.txt", MemFS.File "hello");
                         ("b.txt", MemFS.File "../other.txt")])
   /\ NT.find "C:\repo\real" (world (fst (NT.run ROOT three_entries)))
      = Some (MemFS.Dir [("a.txt", MemFS.File "hello");
                         ("b.txt", MemFS.File "bye")]))
  /\ (NT.open_read "C:\repo\docs\link" dot_directory = Ok "../.real"
      /\ ntpath.normpath
           (ntpath.join (ntpath.dirname "C:\repo\docs\link") "../.real")
         = "C:\repo\.real"
      /\ NT.isdir "C:\repo\.real" dot_directory = true
      /\ NT.below ROOT "C:\repo\.real" = true
      /\ is_file_into_dir (P := NT.platform) "C:\repo\.real" ROOT = Ok false
      /\ snd (NT.run ROOT dot_directory) = Ok 0%Z
      /\ NT.isfile "C:\repo\docs\link" (world (fst (NT.run ROOT dot_directory)))
         = true)
  /\ (snd (fix_all_git_symlinked (P := NT.read_only) ROOT
             (mkState (P := NT.read_only) one_directory [] []))
      = Ok 1%Z
      /\ NT.isfile "C:\repo\docs\link"
           (world (fst (fix_all_git_symlinked (P := NT.read_only) ROOT
                          (mkState (P := NT.read_only) one_directory [] []))))
         = true)
  /\ (snd (fix_all_git_symlinked (P := NT.cut_short) ROOT
             (mkState (P := NT.cut_short) one_directory [] []))
      = Ok 1%Z
      /\ NT.find "C:\repo\docs\link"
           (world (fst (fix_all_git_symlinked (P := NT.cut_short) ROOT
                          (mkState (P := NT.cut_short) one_directory [] []))))
         = Some (MemFS.Dir [])
      /\ NT.find "C:\repo\real"
           (world (fst (fix_all_git_symlinked (P := NT.cut_short) ROOT
                          (mkState (P := NT.cut_short) one_directory [] []))))
         = Some (MemFS.Dir [("a.txt", MemFS.File "hello");
                            ("sub", MemFS.Dir [("b.txt", MemFS.File "bye")])])).
Proof. repeat split; vm_compute; reflexivity. Qed.

End More_runs.
